(** * Sentiment scoring and extractive summarisation

    A shallow embedding of the two text-analysis classes of
    [app_for_deployment.py], [SimpleSentimentAnalyzer] and
    [SimpleTextSummarizer], together with the Python built-ins they call.

    Data model.
    - A Python [str] is a [string]: a sequence of characters, each one of the
      code points U+0000 to U+00FF.  The character tables below ([uni_lower],
      [uni_isspace], [uni_isword]) are those of Python 3 on that range.
    - A Python [float] is a binary64 number ([PrimFloat.float]); arithmetic
      is IEEE 754 with rounding to nearest even, as in CPython.
    - A Python [int] is a [Z].
    - An argument that may be [None] is an [option].
    - [collections.Counter] is a [gmap string Z]; the stop-word [set] is a
      [gset string]. *)

From Stdlib Require Import ZArith List Ascii String Bool Lia Sorted.
From Stdlib Require Import Floats.PrimFloat Floats.SpecFloat Floats.FloatOps.
From stdpp Require Import gmap strings.
Import ListNotations.

Set Warnings "-inexact-float".

#[local] Arguments String.append !_ _ / : simpl nomatch.

Local Open Scope Z_scope.

(** ** Python built-ins *)

Module Py.

(** *** Characters *)

Definition code (c : ascii) : Z := Z.of_N (N_of_ascii c).

Definition chr (n : Z) : ascii := ascii_of_N (Z.to_N n).

Definition in_range (lo hi n : Z) : bool := (lo <=? n) && (n <=? hi).

(** [str.lower] on one character: A-Z, and the Latin-1 capitals U+00C0 to
    U+00DE except the multiplication sign U+00D7, move up by 32. *)
Definition uni_lower (c : ascii) : ascii :=
  let n := code c in
  if in_range 65 90 n || in_range 192 214 n || in_range 216 222 n
  then chr (n + 32) else c.

(** [str.isspace] on one character, which is what [str.strip] removes. *)
Definition uni_isspace (c : ascii) : bool :=
  let n := code c in
  in_range 9 13 n || in_range 28 32 n || (n =? 133) || (n =? 160).

(** The class [\w] of [re] on a [str] pattern: alphanumeric or underscore. *)
Definition uni_isword (c : ascii) : bool :=
  let n := code c in
  in_range 48 57 n || in_range 65 90 n || (n =? 95) || in_range 97 122 n
  || (n =? 170) || in_range 178 179 n || (n =? 181) || in_range 185 186 n
  || in_range 188 190 n || in_range 192 214 n || in_range 216 246 n
  || in_range 248 255 n.

(** *** Strings *)

(** [len(s)] *)
Definition len (s : string) : Z := Z.of_nat (String.length s).

(** [s.lower()] *)
Fixpoint str_lower (s : string) : string :=
  match s with
  | EmptyString => EmptyString
  | String c r => String (uni_lower c) (str_lower r)
  end.

(** [t.startswith(w)] *)
Fixpoint str_startswith (w t : string) : bool :=
  match w, t with
  | EmptyString, _ => true
  | String a w', String b t' => Ascii.eqb a b && str_startswith w' t'
  | String _ _, EmptyString => false
  end.

(** [w in t]: [w] occurs in [t] as a substring. *)
Fixpoint str_contains (w t : string) : bool :=
  str_startswith w t ||
  match t with
  | EmptyString => false
  | String _ t' => str_contains w t'
  end.

(** [s.split(sep)] for a separator of one character. *)
Fixpoint str_split (sep : ascii) (s : string) : list string :=
  match s with
  | EmptyString => [EmptyString]
  | String c r =>
      if Ascii.eqb c sep then EmptyString :: str_split sep r
      else match str_split sep r with
           | p :: ps => String c p :: ps
           | [] => [String c EmptyString]
           end
  end.

Fixpoint str_lstrip (s : string) : string :=
  match s with
  | EmptyString => EmptyString
  | String c r => if uni_isspace c then str_lstrip r else s
  end.

Fixpoint str_rstrip (s : string) : string :=
  match s with
  | EmptyString => EmptyString
  | String c r =>
      match str_rstrip r with
      | EmptyString => if uni_isspace c then EmptyString else String c EmptyString
      | r' => String c r'
      end
  end.

(** [s.strip()] *)
Definition str_strip (s : string) : string := str_rstrip (str_lstrip s).

(** [sep.join(l)] *)
Fixpoint str_join (sep : string) (l : list string) : string :=
  match l with
  | [] => EmptyString
  | [x] => x
  | x :: r => x +:+ sep +:+ str_join sep r
  end.

(** The first [n] characters of [s], or all of [s] when it is shorter. *)
Fixpoint str_take (n : nat) (s : string) : string :=
  match n, s with
  | O, _ => EmptyString
  | S _, EmptyString => EmptyString
  | S n', String c r => String c (str_take n' r)
  end.

(** [s[:k]] on a string *)
Definition str_slice_to (s : string) (k : Z) : string :=
  if 0 <=? k then str_take (Z.to_nat k) s
  else str_take (Z.to_nat (len s + k)) s.

(** [re.findall(r'\w+', s)]: the maximal runs of word characters of [s],
    from left to right. *)
Fixpoint re_findall_word (s : string) : list string :=
  match s with
  | EmptyString => []
  | String c r =>
      if uni_isword c then
        match r with
        | String c' _ =>
            if uni_isword c' then
              match re_findall_word r with
              | w :: ws => String c w :: ws
              | [] => [String c EmptyString]
              end
            else String c EmptyString :: re_findall_word r
        | EmptyString => [String c EmptyString]
        end
      else re_findall_word r
  end.

(** *** Numbers *)

(** [sum(l)] over integers *)
Definition sum (l : list Z) : Z := fold_left Z.add l 0.

(** [float(n)]: the binary64 number nearest to the integer [n]. *)
Definition float_of_int (n : Z) : float :=
  SF2Prim (binary_normalize prec emax n 0 false).

(** [min(a, b)] on floats: the first argument unless the second is smaller. *)
Definition min (a b : float) : float := if PrimFloat.ltb b a then b else a.

(** [max(a, b)] on floats: the first argument unless the second is larger. *)
Definition max (a b : float) : float := if PrimFloat.ltb a b then b else a.

(** The integer nearest to [n / 2^k], ties to the even one ([1 <= k]). *)
Definition div_pow2_half_even (n k : Z) : Z :=
  let q := Z.shiftr n k in
  let r := n - Z.shiftl q k in
  let h := Z.shiftl 1 (k - 1) in
  if r <? h then q
  else if h <? r then q + 1
  else if Z.even q then q else q + 1.

(** [round(x, ndigits)] for [0 <= ndigits]: the exact value of [x] is
    rounded to a multiple of [10^-ndigits], ties to even, and the result is
    the binary64 number nearest to that decimal. *)
Definition round (x : float) (ndigits : Z) : float :=
  match Prim2SF x with
  | S754_finite s m e =>
      let scaled := Z.pos m * 10 ^ ndigits in
      let n := if 0 <=? e then Z.shiftl scaled e
               else div_pow2_half_even scaled (- e) in
      match n, 10 ^ ndigits with
      | Z.pos p, Z.pos d =>
          SF2Prim (SFdiv prec emax (S754_finite s p 0) (S754_finite false d 0))
      | _, _ => if s then (-0)%float else 0%float
      end
  | _ => x
  end.

(** *** Lists *)

(** [l[:k]] *)
Definition slice_to {A} (l : list A) (k : Z) : list A :=
  if 0 <=? k then firstn (Z.to_nat k) l
  else firstn (Z.to_nat (Z.of_nat (length l) + k)) l.

(** [enumerate(l)], with the index counted from [i]. *)
Fixpoint enumerate_from {A} (i : Z) (l : list A) : list (Z * A) :=
  match l with
  | [] => []
  | x :: r => (i, x) :: enumerate_from (i + 1) r
  end.

Definition enumerate {A} (l : list A) : list (Z * A) := enumerate_from 0 l.

(** Stable insertion of [x], which stood before every element of [l], into
    the ascending list [l]: [x] passes the elements strictly below it. *)
Fixpoint insert_stable {A} (lt : A -> A -> bool) (x : A) (l : list A) : list A :=
  match l with
  | [] => [x]
  | y :: r => if lt y x then y :: insert_stable lt x r else x :: l
  end.

(** A stable ascending sort that compares with [lt] only, as [list.sort]. *)
Definition stable_sort {A} (lt : A -> A -> bool) (l : list A) : list A :=
  fold_right (insert_stable lt) [] l.

(** [l.sort(reverse=flag)]: with [reverse] the list is reversed, sorted
    and reversed again, which keeps equal elements in their first order. *)
Definition list_sort {A} (lt : A -> A -> bool) (reverse : bool) (l : list A)
  : list A :=
  if reverse then rev (stable_sort lt (rev l)) else stable_sort lt l.

(** [sorted(l, key=key)] for an integer key *)
Definition sorted_by_key {A} (key : A -> Z) (l : list A) : list A :=
  stable_sort (fun a b => key a <? key b) l.

(** [a < b] on strings: by code point, a proper prefix first. *)
Definition str_lt (a b : string) : bool := String.ltb a b.

(** [a < b] on tuples [(int, int, str)]: the first component that differs
    decides. *)
Definition tuple_lt (a b : Z * Z * string) : bool :=
  let '(s1, i1, t1) := a in
  let '(s2, i2, t2) := b in
  if negb (s1 =? s2) then s1 <? s2
  else if negb (i1 =? i2) then i1 <? i2
  else str_lt t1 t2.

End Py.

(** ** [class SimpleSentimentAnalyzer] *)

Module SimpleSentimentAnalyzer.

Local Open Scope float_scope.

(** The three values of the ['label'] entry. *)
Inductive Label : Type := positive | negative | neutral.

(** The dictionary returned by [analyze_sentiment]. *)
Record SentimentResult : Type := mkResult {
  label : Label;
  confidence : float;
  polarity : float
}.

(** [self.positive_words] *)
Definition positive_words : list string :=
  [ "good"; "great"; "excellent"; "positive"; "support"; "agree"; "approve";
    "like"; "love"; "amazing"; "wonderful"; "fantastic"; "perfect";
    "outstanding"; "brilliant"; "commend"; "endorse"; "recommend"; "beneficial";
    "effective"; "successful"; "impressive"; "satisfactory"; "adequate" ]%string.

(** [self.negative_words] *)
Definition negative_words : list string :=
  [ "bad"; "terrible"; "awful"; "negative"; "oppose"; "disagree"; "disapprove";
    "hate"; "dislike"; "horrible"; "disgusting"; "worst"; "fail"; "problem";
    "issue"; "concern"; "flawed"; "inadequate"; "insufficient"; "problematic";
    "disappointing"; "unsatisfactory"; "poor"; "weak"; "deficient" ]%string.

(** [sum(1 for word in words if word in text_lower)] *)
Definition count_matches (words : list string) (text_lower : string) : Z :=
  Py.sum (map (fun _ => 1%Z)
              (List.filter (fun word => Py.str_contains word text_lower) words)).

(** Lines 44 to 60 of [analyze_sentiment]: the label, the polarity and the
    confidence for the two counts. *)
Definition result_of_counts (positive_count negative_count : Z)
  : SentimentResult :=
  let '(label, polarity) :=
    if (positive_count >? negative_count)%Z then
      (positive,
       Py.min 0.8 (0.3 + Py.float_of_int (positive_count - negative_count) * 0.1))
    else if (negative_count >? positive_count)%Z then
      (negative,
       Py.max (-0.8) (-0.3 - Py.float_of_int (negative_count - positive_count) * 0.1))
    else (neutral, 0.0)
  in
  let confidence :=
    Py.min 1.0 (0.5 + Py.float_of_int (Z.abs (positive_count - negative_count)) * 0.1)
  in
  {| label := label;
     confidence := Py.round confidence 4;
     polarity := Py.round polarity 4 |}.

(** [analyze_sentiment(self, text)]; [not text] holds of [None] and of the
    empty string. *)
Definition analyze_sentiment (text : option string) : SentimentResult :=
  match text with
  | None | Some EmptyString =>
      {| label := neutral; confidence := 0.0; polarity := 0.0 |}
  | Some text =>
      let text_lower := Py.str_lower text in
      let positive_count := count_matches positive_words text_lower in
      let negative_count := count_matches negative_words text_lower in
      result_of_counts positive_count negative_count
  end.

End SimpleSentimentAnalyzer.

(** ** [class SimpleTextSummarizer] *)

Module SimpleTextSummarizer.

(** [self.stop_words] *)
Definition stop_words : gset string :=
  list_to_set
    [ "the"; "a"; "an"; "and"; "or"; "but"; "in"; "on"; "at"; "to"; "for";
      "of"; "with"; "by"; "is"; "are"; "was"; "were"; "be"; "been"; "being";
      "this"; "that"; "these"; "those"; "i"; "you"; "he"; "she"; "it"; "we";
      "they" ]%string.

(** [word not in self.stop_words] *)
Definition not_stop_word (word : string) : bool :=
  bool_decide (word ∉ stop_words).

(** [word_freq[word]] and [word_freq.get(word, 0)]: a missing key counts 0. *)
Definition freq (word_freq : gmap string Z) (word : string) : Z :=
  default 0 (word_freq !! word).

(** Line 74: the trimmed pieces between periods that are longer than 20. *)
Definition split_sentences (text : string) : list string :=
  map Py.str_strip
      (List.filter (fun s => 20 <? Py.len (Py.str_strip s))
                   (Py.str_split "."%char text)).

(** Lines 79 to 84: the loop that fills the counter. *)
Definition count_words (sentences : list string) : gmap string Z :=
  fold_left
    (fun word_freq sentence =>
       let words := Py.re_findall_word (Py.str_lower sentence) in
       fold_left
         (fun word_freq word =>
            if not_stop_word word && (3 <? Py.len word)
            then <[word := freq word_freq word + 1]> word_freq
            else word_freq)
         words word_freq)
    sentences ∅.

(** Lines 87 to 91: the tuples [(score, i, sentence)]. *)
Definition score_sentences (word_freq : gmap string Z) (sentences : list string)
  : list (Z * Z * string) :=
  map (fun '(i, sentence) =>
         let words := Py.re_findall_word (Py.str_lower sentence) in
         let score :=
           Py.sum (map (freq word_freq) (List.filter not_stop_word words)) in
         (score, i, sentence))
      (Py.enumerate sentences).

(** Line 94: [sentence_scores] after [sort(reverse=True)]. *)
Definition rank_sentences (sentences : list string) : list (Z * Z * string) :=
  Py.list_sort Py.tuple_lt true
    (score_sentences (count_words sentences) sentences).

(** Line 95: [top_sentences]. *)
Definition top_sentences (sentences : list string) (max_sentences : Z)
  : list (Z * Z * string) :=
  Py.sorted_by_key (fun x => snd (fst x))
    (Py.slice_to (rank_sentences sentences) max_sentences).

(** [generate_summary(self, text, max_sentences)] *)
Definition generate_summary (text : option string) (max_sentences : Z) : string :=
  match text with
  | None | Some EmptyString => "No text provided for summarization."
  | Some text =>
      let sentences := split_sentences text in
      if Z.of_nat (length sentences) <=? max_sentences then text
      else
        let top := top_sentences sentences max_sentences in
        Py.str_join ". " (map (fun '(_, _, sentence) => sentence) top) +:+ "."
  end.

(** The call with the default [max_sentences=3]. *)
Definition generate_summary_default (text : option string) : string :=
  generate_summary text 3.

End SimpleTextSummarizer.

Import SimpleSentimentAnalyzer SimpleTextSummarizer.

(** ** [upload_and_analyze], from the rows on *)

Module Upload.

Local Open Scope float_scope.

(** A row as [csv.DictReader] yields it: the header names with the fields
    of one data line, in the order of the header, no name twice.  A line
    that is shorter than the header has [None] for its missing fields.  A
    line that is longer than the header, which gets one more key [None], is
    not covered. *)
Definition Row : Type := list (string * option string).

(** The ['id'] of a comment, [row.get('id', i)]: the field of that name, or
    the number of the row when there is no such field. *)
Inductive CommentId : Type :=
| IdField (value : option string)
| IdRow (i : Z).

(** An entry of [comments]. *)
Record Comment : Type := mkComment {
  comment_id : CommentId;
  comment_text : string
}.

(** An entry of [sentiment_results]. *)
Record SentimentEntry : Type := mkEntry {
  entry_id : CommentId;
  entry_text : string;
  entry_sentiment : Label;
  entry_confidence : float;
  entry_polarity : float
}.

(** [sentiment_counts] *)
Record Distribution : Type := mkDistribution {
  count_positive : Z;
  count_negative : Z;
  count_neutral : Z
}.

(** The dictionary of the successful answer. *)
Record Report : Type := mkReport {
  sentiment_results : list SentimentEntry;
  summary : string;
  sentiment_distribution : Distribution;
  average_polarity : float;
  total_comments : Z
}.

(** The answer: an error with its status code, or the report (status 200). *)
Inductive Response : Type :=
| Failed (error : string) (status : Z)
| Analyzed (report : Report).

(** Truth value of a field: [None] and the empty string are false. *)
Definition truthy (value : option string) : bool :=
  match value with
  | Some (String _ _) => true
  | _ => false
  end.

(** [any(word in key.lower() for word in
    ['comment', 'text', 'feedback', 'suggestion', 'remarks'])] *)
Definition names_text_column (key : string) : bool :=
  existsb (fun word => Py.str_contains word (Py.str_lower key))
          [ "comment"; "text"; "feedback"; "suggestion"; "remarks" ]%string.

(** Lines 393 to 397: [text] after the loop over the keys, the field of
    the first key that names a text column. *)
Fixpoint find_text_column (row : Row) : option string :=
  match row with
  | [] => None
  | (key, value) :: rest =>
      if names_text_column key then value else find_text_column rest
  end.

(** Line 400:
    [next((v for v in row.values() if v and len(str(v).strip()) > 10), None)] *)
Fixpoint first_long_value (row : Row) : option string :=
  match row with
  | [] => None
  | (_, value) :: rest =>
      match value with
      | Some v =>
          if truthy value && (10 <? Py.len (Py.str_strip v))%Z then Some v
          else first_long_value rest
      | None => first_long_value rest
      end
  end.

(** [row.get('id', i)] *)
Fixpoint row_get_id (row : Row) (i : Z) : CommentId :=
  match row with
  | [] => IdRow i
  | (key, value) :: rest =>
      if String.eqb key "id" then IdField value else row_get_id rest i
  end.

(** Lines 392 to 406 for the row numbered [i]: the comment that is
    appended, if one is. *)
Definition comment_of_row (i : Z) (row : Row) : option Comment :=
  let text := find_text_column row in
  let text :=
    if negb (truthy text) && negb (match row with [] => true | _ => false end)
    then first_long_value row else text in
  match text with
  | Some t =>
      if truthy text && (5 <? Py.len (Py.str_strip t))%Z
      then Some {| comment_id := row_get_id row i;
                   comment_text := Py.str_strip t |}
      else None
  | None => None
  end.

(** The loop of line 391 over the numbered rows. *)
Fixpoint collect_from (numbered : list (Z * Row)) : list Comment :=
  match numbered with
  | [] => []
  | (i, row) :: rest =>
      match comment_of_row i row with
      | Some comment => comment :: collect_from rest
      | None => collect_from rest
      end
  end.

(** [comments] after the loop over [enumerate(reader, 1)]. *)
Definition collect_comments (rows : list Row) : list Comment :=
  collect_from (Py.enumerate_from 1 rows).

(** Line 417: the text shown for a comment. *)
Definition preview (text : string) : string :=
  if (200 <? Py.len text)%Z then Py.str_slice_to text 200 +:+ "..." else text.

(** Lines 413 to 421: the entry for one comment. *)
Definition sentiment_entry (comment : Comment) : SentimentEntry :=
  let sentiment := analyze_sentiment (Some (comment_text comment)) in
  {| entry_id := comment_id comment;
     entry_text := preview (comment_text comment);
     entry_sentiment := label sentiment;
     entry_confidence := confidence sentiment;
     entry_polarity := polarity sentiment |}.

(** [sentiment_counts[label] += 1] *)
Definition count_label (counts : Distribution) (l : Label) : Distribution :=
  match l with
  | positive =>
      {| count_positive := count_positive counts + 1;
         count_negative := count_negative counts;
         count_neutral := count_neutral counts |}
  | negative =>
      {| count_positive := count_positive counts;
         count_negative := count_negative counts + 1;
         count_neutral := count_neutral counts |}
  | neutral =>
      {| count_positive := count_positive counts;
         count_negative := count_negative counts;
         count_neutral := count_neutral counts + 1 |}
  end%Z.

(** Lines 428 to 433: the counts and the sum of the polarities. *)
Definition tally (results : list SentimentEntry) : Distribution * float :=
  fold_left
    (fun '(counts, total_polarity) result =>
       (count_label counts (entry_sentiment result),
        total_polarity + entry_polarity result))
    results
    ({| count_positive := 0; count_negative := 0; count_neutral := 0 |}, 0.0).

(** [upload_and_analyze] from line 389 on, where [rows] is what iterating
    [reader] yields.  The request handling and the parsing of the file
    above that line are not part of this definition. *)
Definition upload_and_analyze (rows : list Row) : Response :=
  let comments := collect_comments rows in
  match comments with
  | [] => Failed "No valid comments found in CSV file" 400
  | _ :: _ =>
      let sentiment_results := map sentiment_entry comments in
      let all_text := Py.str_join " " (map comment_text comments) in
      let summary := generate_summary_default (Some all_text) in
      let '(sentiment_counts, total_polarity) := tally sentiment_results in
      let avg_polarity :=
        match sentiment_results with
        | [] => 0.0
        | _ :: _ =>
            total_polarity
            / Py.float_of_int (Z.of_nat (length sentiment_results))
        end in
      Analyzed
        {| sentiment_results := sentiment_results;
           summary := summary;
           sentiment_distribution := sentiment_counts;
           average_polarity := Py.round avg_polarity 4;
           total_comments := Z.of_nat (length sentiment_results) |}
  end.

End Upload.

Import Upload.

(** * Vocabulary of the properties *)

(** [c] occurs in [s]. *)
Fixpoint str_has (c : ascii) (s : string) : bool :=
  match s with
  | EmptyString => false
  | String x r => Ascii.eqb x c || str_has c r
  end.

(** Every character of [s] is white space. *)
Fixpoint all_space (s : string) : bool :=
  match s with
  | EmptyString => true
  | String c r => Py.uni_isspace c && all_space r
  end.

Definition str_first (s : string) : option ascii :=
  match s with
  | EmptyString => None
  | String c _ => Some c
  end.

Fixpoint str_last (s : string) : option ascii :=
  match s with
  | EmptyString => None
  | String c EmptyString => Some c
  | String _ r => str_last r
  end.

(** [c], when there is one, is not white space. *)
Definition not_space (c : option ascii) : Prop :=
  match c with
  | Some c => Py.uni_isspace c = false
  | None => True
  end.

(** The integers [0], [1], ..., [n - 1]. *)
Definition upto (n : nat) : list Z := map Z.of_nat (seq 0 n).

(** [check] holds of the result for every pair of counts that the two
    lexicons allow. *)
Definition for_all_counts (check : SentimentResult -> bool) : bool :=
  forallb (fun p => forallb (fun n => check (result_of_counts p n))
                            (upto (S (length negative_words))))
          (upto (S (length positive_words))).

Definition is_label (a b : Label) : bool :=
  match a, b with
  | positive, positive | negative, negative | neutral, neutral => true
  | _, _ => false
  end.

(** The label agrees with the sign of the polarity. *)
Definition sign_agrees (r : SentimentResult) : bool :=
  Bool.eqb (is_label (label r) positive) (PrimFloat.ltb 0 (polarity r))
  && Bool.eqb (is_label (label r) negative) (PrimFloat.ltb (polarity r) 0)
  && Bool.eqb (is_label (label r) neutral) (PrimFloat.eqb (polarity r) 0).

(** Confidence within [0, 1] and polarity within [-0.8, 0.8]. *)
Definition in_bounds (r : SentimentResult) : bool :=
  PrimFloat.leb 0 (confidence r) && PrimFloat.leb (confidence r) 1
  && PrimFloat.leb (-0.8) (polarity r) && PrimFloat.leb (polarity r) 0.8.

(** The negative entries that hold a positive entry, with that entry. *)
Definition embedded_pairs : list (string * string) :=
  [ ("dislike", "like"); ("disagree", "agree"); ("disapprove", "approve");
    ("unsatisfactory", "satisfactory") ]%string.

(** The components of a tuple [(score, i, sentence)]. *)
Definition tuple_score (x : Z * Z * string) : Z := fst (fst x).
Definition tuple_index (x : Z * Z * string) : Z := snd (fst x).
Definition tuple_sentence (x : Z * Z * string) : string := snd x.

(** [a] stands before [b] when the order is by score descending and, on
    equal scores, by index ascending. *)
Definition earlier_wins_ties (a b : Z * Z * string) : Prop :=
  tuple_score b < tuple_score a
  \/ (tuple_score a = tuple_score b /\ tuple_index a < tuple_index b).

(** [a] stands before [b] when the order is by score descending and, on
    equal scores, by index descending. *)
Definition later_wins_ties (a b : Z * Z * string) : Prop :=
  tuple_score b < tuple_score a
  \/ (tuple_score a = tuple_score b /\ tuple_index b < tuple_index a).

(** [a] is not above [b] in score and index, the pair read as one key. *)
Definition key_le (a b : Z * Z * string) : Prop :=
  tuple_score a < tuple_score b
  \/ (tuple_score a = tuple_score b /\ tuple_index a <= tuple_index b).

(** [s] is [piece] without the white space at its two ends. *)
Definition is_trim_of (s piece : string) : Prop :=
  (exists l r, piece = l +:+ s +:+ r /\ all_space l = true /\ all_space r = true)
  /\ not_space (str_first s) /\ not_space (str_last s).

(** The result that the difference [d] of the two counts stands for, in
    decimals: polarity [0.3 + 0.1 * |d|] with the sign of [d], held at 0.8
    from [|d| = 5] on, and confidence [0.5 + 0.1 * |d|], held at 1.0. *)
Definition result_for_difference (d : Z) : SentimentResult :=
  if d <=? -5 then {| label := negative; confidence := 1.0; polarity := -0.8 |}
  else if d =? -4 then {| label := negative; confidence := 0.9; polarity := -0.7 |}
  else if d =? -3 then {| label := negative; confidence := 0.8; polarity := -0.6 |}
  else if d =? -2 then {| label := negative; confidence := 0.7; polarity := -0.5 |}
  else if d =? -1 then {| label := negative; confidence := 0.6; polarity := -0.4 |}
  else if d =? 0 then {| label := neutral; confidence := 0.5; polarity := 0.0 |}
  else if d =? 1 then {| label := positive; confidence := 0.6; polarity := 0.4 |}
  else if d =? 2 then {| label := positive; confidence := 0.7; polarity := 0.5 |}
  else if d =? 3 then {| label := positive; confidence := 0.8; polarity := 0.6 |}
  else if d =? 4 then {| label := positive; confidence := 0.9; polarity := 0.7 |}
  else {| label := positive; confidence := 1.0; polarity := 0.8 |}.

(** The pairs of counts that the two lexicons allow. *)
Definition count_domain : list (Z * Z) :=
  list_prod (upto (S (length positive_words))) (upto (S (length negative_words))).

(** The words of a sentence as the two loops of [generate_summary] see
    them. *)
Definition sentence_words (sentence : string) : list string :=
  Py.re_findall_word (Py.str_lower sentence).

(** The test of line 83: the word is counted. *)
Definition counted (word : string) : bool :=
  not_stop_word word && (3 <? Py.len word).

(** The counted words of all sentences, in the order of the loops. *)
Definition counted_words (sentences : list string) : list string :=
  concat (map (fun sentence => List.filter counted (sentence_words sentence))
              sentences).

(** The state of the counter after the words [seen] have been counted. *)
Definition counter_of (seen : list string) (word_freq : gmap string Z) : Prop :=
  forall w,
    word_freq !! w
    = match count_occ string_dec seen w with
      | O => None
      | S c => Some (Z.of_nat (S c))
      end.

(** What every surviving sentence is: free of periods, without white space
    at its two ends, and longer than 20. *)
Definition clean_sentence (s : string) : Prop :=
  str_has "." s = false /\ not_space (str_first s) /\ not_space (str_last s)
  /\ 20 < Py.len s.

(** The number of entries with the label [l]. *)
Definition labelled (l : Label) (results : list SentimentEntry) : Z :=
  Z.of_nat (length (List.filter (fun e => is_label (entry_sentiment e) l) results)).


(** Three data rows under the header [name,Comment]; the last line is
    short, so that its second field is missing. *)
Definition example_rows : list Row :=
  [ [ ("name", Some "Ann"); ("Comment", Some "  This is great and wonderful  ") ];
    [ ("name", Some "Bob"); ("Comment", Some "It went badly, a terrible idea") ];
    [ ("name", Some "Cy"); ("Comment", None) ] ]%string.

(** A text of three surviving sentences and a short fragment. *)
Definition example_text : string :=
  "The committee reviewed the budget proposal. The budget proposal was reviewed again. Nothing else happened in the meeting today. ok.".

(** * Tactics *)

(** Closes [forall w, In w words -> Py.str_contains w t = true -> w = hit]
    for a concrete list [words] and concrete [t] and [hit], entry by entry. *)
Ltac only_hit :=
  let w := fresh "w" in
  let Hw := fresh "Hw" in
  let Hc := fresh "Hc" in
  intros w Hw Hc; simpl in Hw;
  repeat (destruct Hw as [<-|Hw];
          [first [reflexivity | vm_compute in Hc; discriminate Hc]|]);
  contradiction.

(** * Properties *)

(** ** Strings *)

Section Strings.

Local Open Scope string_scope.

Lemma append_assoc (a b c : string) : (a +:+ b) +:+ c = a +:+ (b +:+ c).
Proof. induction a as [|x a IH]; simpl; [reflexivity | now rewrite IH]. Qed.

Lemma str_startswith_spec (w t : string) :
  Py.str_startswith w t = true <-> exists b, t = w +:+ b.
Proof.
  revert t; induction w as [|a w IH]; intros t; simpl.
  - split; [intros _; now exists t | reflexivity].
  - destruct t as [|b t].
    + split; [discriminate | intros [r Hr]; discriminate].
    + rewrite andb_true_iff, Ascii.eqb_eq, IH. split.
      * intros [-> [r ->]]. now exists r.
      * intros [r Hr]. injection Hr as -> ->. split; [reflexivity | now exists r].
Qed.

Lemma str_contains_spec (w t : string) :
  Py.str_contains w t = true <-> exists a b, t = a +:+ w +:+ b.
Proof.
  induction t as [|c t IH].
  - cbn [Py.str_contains]. rewrite orb_false_r, str_startswith_spec. split.
    + intros [b Hb]. now exists "", b.
    + intros [a [b Hab]]. destruct a; [now exists b | discriminate].
  - cbn [Py.str_contains]. rewrite orb_true_iff, str_startswith_spec, IH. split.
    + intros [[b Hb] | [a [b ->]]].
      * now exists "", b.
      * now exists (String c a), b.
    + intros [a [b Hab]]. destruct a as [|x a].
      * left. now exists b.
      * right. simpl in Hab. injection Hab as -> ->. now exists a, b.
Qed.

(** An occurrence of [p] in [w] is carried by every occurrence of [w]. *)
Lemma str_contains_trans (p w t : string) :
  Py.str_contains p w = true -> Py.str_contains w t = true ->
  Py.str_contains p t = true.
Proof.
  rewrite !str_contains_spec. intros [a [b ->]] [a' [b' ->]].
  exists (a' +:+ a), (b +:+ b'). now rewrite !append_assoc.
Qed.

Lemma str_split_not_nil (sep : ascii) (s : string) : Py.str_split sep s <> [].
Proof.
  induction s as [|c s IH]; simpl; [discriminate|].
  destruct (Ascii.eqb c sep); [discriminate|].
  destruct (Py.str_split sep s); [contradiction | discriminate].
Qed.

Lemma str_join_cons (sep x y : string) (l : list string) :
  Py.str_join sep (x :: y :: l) = x +:+ sep +:+ Py.str_join sep (y :: l).
Proof. reflexivity. Qed.

(** Joining the pieces with the separator gives the text back. *)
Lemma str_join_split (sep : ascii) (s : string) :
  Py.str_join (String sep "") (Py.str_split sep s) = s.
Proof.
  induction s as [|c s IH]; [reflexivity|].
  pose proof (str_split_not_nil sep s) as Hnil.
  cbn [Py.str_split]. destruct (Ascii.eqb_spec c sep) as [->|Hne];
    destruct (Py.str_split sep s) as [|p ps]; try contradiction.
  - rewrite str_join_cons, IH. reflexivity.
  - destruct ps as [|q ps].
    + simpl in *. now rewrite IH.
    + rewrite str_join_cons in *. rewrite <- IH. reflexivity.
Qed.

(** No piece holds the separator. *)
Lemma str_split_no_sep (sep : ascii) (s : string) :
  Forall (fun piece => str_has sep piece = false) (Py.str_split sep s).
Proof.
  induction s as [|c s IH]; simpl; [now repeat constructor|].
  destruct (Ascii.eqb c sep) eqn:Ec.
  - constructor; [reflexivity | exact IH].
  - destruct (Py.str_split sep s) as [|p ps].
    { constructor; [simpl; now rewrite Ec | constructor]. }
    inversion IH as [|? ? Hp Hps]; subst.
    constructor; [simpl; now rewrite Ec | exact Hps].
Qed.

End Strings.

(** ** The sentiment analyzer *)

Section Sentiment.

Lemma sum_ones_from {A} (l : list A) (acc : Z) :
  fold_left Z.add (map (fun _ => 1) l) acc = acc + Z.of_nat (length l).
Proof.
  revert acc; induction l as [|x l IH]; intros acc; simpl fold_left.
  - simpl. lia.
  - rewrite IH. simpl length. lia.
Qed.

(** The count is the number of entries that occur in the text. *)
Lemma count_matches_length (words : list string) (t : string) :
  count_matches words t =
  Z.of_nat (length (List.filter (fun word => Py.str_contains word t) words)).
Proof. unfold count_matches, Py.sum. now rewrite sum_ones_from. Qed.

Lemma filter_length_le {A} (f : A -> bool) (l : list A) :
  (length (List.filter f l) <= length l)%nat.
Proof.
  induction l as [|x l IH]; simpl; [lia|]. destruct (f x); simpl; lia.
Qed.

Lemma count_matches_bounds (words : list string) (t : string) :
  0 <= count_matches words t <= Z.of_nat (length words).
Proof.
  rewrite count_matches_length.
  pose proof (filter_length_le (fun word => Py.str_contains word t) words). lia.
Qed.

Lemma in_upto (n : nat) (z : Z) : 0 <= z < Z.of_nat n -> In z (upto n).
Proof.
  intros Hz. unfold upto. apply in_map_iff. exists (Z.to_nat z).
  split; [lia | apply in_seq; lia].
Qed.

(** What [analyze_sentiment] computes on a text that is not empty. *)
Lemma analyze_sentiment_nonempty (c : ascii) (r : string) :
  analyze_sentiment (Some (String c r)) =
  result_of_counts
    (count_matches positive_words (Py.str_lower (String c r)))
    (count_matches negative_words (Py.str_lower (String c r))).
Proof. reflexivity. Qed.

(** A check that passes on the early result and on every pair of counts
    passes on every result. *)
Lemma analyze_sentiment_check (check : SentimentResult -> bool) :
  check {| label := neutral; confidence := 0; polarity := 0 |} = true ->
  for_all_counts check = true ->
  forall text, check (analyze_sentiment text) = true.
Proof.
  intros Hearly Hall [[|c r]|]; try exact Hearly.
  rewrite analyze_sentiment_nonempty.
  unfold for_all_counts in Hall. rewrite forallb_forall in Hall.
  pose proof (count_matches_bounds positive_words (Py.str_lower (String c r))) as Hp.
  pose proof (count_matches_bounds negative_words (Py.str_lower (String c r))) as Hn.
  set (p := count_matches positive_words _) in *.
  set (n := count_matches negative_words _) in *.
  assert (Hrow : forallb (fun n => check (result_of_counts p n))
                   (upto (S (length negative_words))) = true).
  { apply Hall, in_upto. lia. }
  rewrite forallb_forall in Hrow. apply Hrow, in_upto. lia.
Qed.

End Sentiment.

Section SentimentClaims.

Local Open Scope float_scope.

(** C2. For every input text, [None] included, the label of the result is
    positive exactly when the polarity is above zero, negative exactly when
    it is below zero, and neutral exactly when it equals zero. *)
Theorem label_matches_polarity_sign (text : option string) :
  (label (analyze_sentiment text) = positive
   <-> (0 <? polarity (analyze_sentiment text)) = true) /\
  (label (analyze_sentiment text) = negative
   <-> (polarity (analyze_sentiment text) <? 0) = true) /\
  (label (analyze_sentiment text) = neutral
   <-> (polarity (analyze_sentiment text) =? 0) = true).
Proof.
  assert (H : sign_agrees (analyze_sentiment text) = true).
  { apply analyze_sentiment_check; vm_compute; reflexivity. }
  unfold sign_agrees in H.
  destruct (label (analyze_sentiment text));
    destruct (0 <? polarity (analyze_sentiment text));
    destruct (polarity (analyze_sentiment text) <? 0);
    destruct (polarity (analyze_sentiment text) =? 0);
    simpl in H; try discriminate H;
    repeat split; intros; try reflexivity; discriminate.
Qed.

(** C3. For every input text the confidence lies in [0.0, 1.0] and the
    polarity in [-0.8, 0.8], however many lexicon entries the text holds. *)
Theorem confidence_and_polarity_bounds (text : option string) :
  (0.0 <=? confidence (analyze_sentiment text)) = true /\
  (confidence (analyze_sentiment text) <=? 1.0) = true /\
  (-0.8 <=? polarity (analyze_sentiment text)) = true /\
  (polarity (analyze_sentiment text) <=? 0.8) = true.
Proof.
  assert (H : in_bounds (analyze_sentiment text) = true).
  { apply analyze_sentiment_check; vm_compute; reflexivity. }
  unfold in_bounds in H. rewrite !andb_true_iff in H. tauto.
Qed.

(** C4. On [None] and on the empty string the result is exactly neutral
    with confidence 0.0 and polarity 0.0: the early return, and not the
    scoring formula, which gives confidence 0.5 on counts of zero. *)
Theorem empty_text_is_neutral_zero :
  analyze_sentiment None
  = {| label := neutral; confidence := 0.0; polarity := 0.0 |} /\
  analyze_sentiment (Some EmptyString)
  = {| label := neutral; confidence := 0.0; polarity := 0.0 |} /\
  result_of_counts (count_matches positive_words EmptyString)
                   (count_matches negative_words EmptyString)
  = {| label := neutral; confidence := 0.5; polarity := 0.0 |}.
Proof. repeat split; vm_compute; reflexivity. Qed.

(** C5. [analyze_sentiment("This is great and wonderful")] is positive with
    polarity 0.5 and confidence 0.7: the positive entries in the lowered
    text are "great" and "wonderful", and no negative entry is in it. *)
Theorem great_and_wonderful_is_positive :
  analyze_sentiment (Some "This is great and wonderful"%string)
  = {| label := positive; confidence := 0.7; polarity := 0.5 |} /\
  List.filter
    (fun word => Py.str_contains word (Py.str_lower "This is great and wonderful"))
    positive_words = [ "great"; "wonderful" ]%string /\
  List.filter
    (fun word => Py.str_contains word (Py.str_lower "This is great and wonderful"))
    negative_words = [] /\
  count_matches positive_words (Py.str_lower "This is great and wonderful") = 2%Z /\
  count_matches negative_words (Py.str_lower "This is great and wonderful") = 0%Z.
Proof. repeat split; vm_compute; reflexivity. Qed.

End SentimentClaims.

Section EmbeddedEntries.

Local Open Scope string_scope.

(** When [hit] is the one entry of [words] that occurs in [t], the entries
    of [words] that occur in [t] are the copies of [hit]. *)
Lemma filter_single_hit (words : list string) (t hit : string) :
  Py.str_contains hit t = true ->
  (forall w, In w words -> Py.str_contains w t = true -> w = hit) ->
  List.filter (fun word => Py.str_contains word t) words
  = List.filter (String.eqb hit) words.
Proof.
  intros Hhit Honly. apply filter_ext_in. intros w Hw.
  destruct (Py.str_contains w t) eqn:E.
  - rewrite (Honly w Hw E). symmetry. apply String.eqb_refl.
  - symmetry. apply String.eqb_neq. intros ->. congruence.
Qed.

(** C9. Matching is substring containment, and each of "dislike",
    "disagree", "disapprove" and "unsatisfactory" holds a positive entry
    ("like", "agree", "approve", "satisfactory").  So a text whose lowered
    form holds one of these negative entries, no other negative entry and
    no positive entry but the embedded one has one hit on each side, and
    the result is neutral with polarity 0.0 and confidence 0.5; "dislike"
    itself is such a text. *)
Theorem embedded_positive_entry_gives_neutral
    (text neg pos : string)
    (Hpair : In (neg, pos) embedded_pairs)
    (Hneg : Py.str_contains neg (Py.str_lower text) = true)
    (Hneg_only : forall w, In w negative_words ->
                   Py.str_contains w (Py.str_lower text) = true -> w = neg)
    (Hpos_only : forall w, In w positive_words ->
                   Py.str_contains w (Py.str_lower text) = true -> w = pos) :
  In neg negative_words /\ In pos positive_words /\
  Py.str_contains pos neg = true /\
  count_matches positive_words (Py.str_lower text) = 1 /\
  count_matches negative_words (Py.str_lower text) = 1 /\
  analyze_sentiment (Some text)
  = {| label := neutral; confidence := 0.5; polarity := 0.0 |} /\
  analyze_sentiment (Some "dislike")
  = {| label := neutral; confidence := 0.5; polarity := 0.0 |}.
Proof.
  assert (Hfacts : In neg negative_words /\ In pos positive_words /\
                   Py.str_contains pos neg = true /\
                   length (List.filter (String.eqb neg) negative_words) = 1%nat /\
                   length (List.filter (String.eqb pos) positive_words) = 1%nat /\
                   Py.str_contains neg "" = false).
  { unfold embedded_pairs in Hpair. simpl in Hpair.
    destruct Hpair as [E|[E|[E|[E|[]]]]]; injection E as <- <-;
      vm_compute; intuition (auto; discriminate). }
  destruct Hfacts as (Hin_neg & Hin_pos & Hsub & Hlen_neg & Hlen_pos & Hempty).
  assert (Hpos : Py.str_contains pos (Py.str_lower text) = true)
    by (eapply str_contains_trans; eassumption).
  assert (Hp : count_matches positive_words (Py.str_lower text) = 1).
  { rewrite count_matches_length, (filter_single_hit _ _ pos) by assumption.
    now rewrite Hlen_pos. }
  assert (Hn : count_matches negative_words (Py.str_lower text) = 1).
  { rewrite count_matches_length, (filter_single_hit _ _ neg) by assumption.
    now rewrite Hlen_neg. }
  do 5 (split; [assumption|]). split.
  - destruct text as [|c r].
    { change (Py.str_lower "") with "" in Hneg. congruence. }
    rewrite analyze_sentiment_nonempty, Hp, Hn. vm_compute. reflexivity.
  - vm_compute. reflexivity.
Qed.

End EmbeddedEntries.

(** ** Sorting *)

Section Sorting.

Context {A : Type} (lt : A -> A -> bool) (le : A -> A -> Prop).

Hypothesis le_trans : forall a b c, le a b -> le b c -> le a c.
Hypothesis lt_le : forall a b, lt a b = true -> le a b.
Hypothesis not_lt_le : forall a b, lt a b = false -> le b a.

Lemma insert_stable_perm (x : A) (l : list A) :
  Permutation (Py.insert_stable lt x l) (x :: l).
Proof.
  induction l as [|y l IH]; simpl; [reflexivity|].
  destruct (lt y x); [|reflexivity].
  rewrite IH. apply perm_swap.
Qed.

Lemma stable_sort_perm (l : list A) : Permutation (Py.stable_sort lt l) l.
Proof.
  induction l as [|x l IH]; simpl; [reflexivity|].
  rewrite insert_stable_perm. now constructor.
Qed.

Lemma insert_stable_sorted (x : A) (l : list A) :
  StronglySorted le l -> StronglySorted le (Py.insert_stable lt x l).
Proof.
  induction 1 as [|y l Hl IH Hy]; simpl.
  - repeat constructor.
  - destruct (lt y x) eqn:E.
    + constructor; [exact IH|].
      eapply Permutation_Forall.
      * symmetry. apply insert_stable_perm.
      * constructor; [now apply lt_le | exact Hy].
    + constructor; [now constructor|].
      constructor; [now apply not_lt_le|].
      rewrite List.Forall_forall in Hy. apply List.Forall_forall. intros z Hz.
      eapply le_trans; [apply not_lt_le; exact E | now apply Hy].
Qed.

Lemma stable_sort_sorted (l : list A) : StronglySorted le (Py.stable_sort lt l).
Proof.
  induction l as [|x l IH]; simpl; [constructor|].
  now apply insert_stable_sorted.
Qed.

End Sorting.

Section SortedLists.

Context {A : Type}.

Lemma sorted_app (R : A -> A -> Prop) (l1 l2 : list A) :
  StronglySorted R l1 -> StronglySorted R l2 ->
  (forall x y, In x l1 -> In y l2 -> R x y) ->
  StronglySorted R (l1 ++ l2).
Proof.
  induction 1 as [|a l1 Hl1 IH Ha]; intros H2 Hcross; simpl; [exact H2|].
  constructor.
  - apply IH; [exact H2|]. intros x y Hx Hy. apply Hcross; [now right | exact Hy].
  - apply List.Forall_app. split; [exact Ha|].
    apply List.Forall_forall. intros y Hy. apply Hcross; [now left | exact Hy].
Qed.

Lemma sorted_rev (R : A -> A -> Prop) (l : list A) :
  StronglySorted R l -> StronglySorted (fun a b => R b a) (rev l).
Proof.
  induction 1 as [|a l Hl IH Ha]; simpl; [constructor|].
  apply sorted_app; [exact IH | repeat constructor|].
  intros x y Hx [<-|[]]. rewrite List.Forall_forall in Ha.
  apply Ha. now apply in_rev.
Qed.

Lemma in_firstn (n : nat) (l : list A) (x : A) : In x (firstn n l) -> In x l.
Proof.
  intros H. rewrite <- (firstn_skipn n l). apply in_or_app. now left.
Qed.

(** With keys that differ, a weak order between neighbours is strict. *)
Lemma sorted_strengthen {K} (key : A -> K) (R R' : A -> A -> Prop) (l : list A) :
  (forall x y, R x y -> key x <> key y -> R' x y) ->
  List.NoDup (map key l) -> StronglySorted R l -> StronglySorted R' l.
Proof.
  intros Hstep Hnd H; induction H as [|a l Hl IH Ha]; [constructor|].
  simpl in Hnd. apply NoDup_cons_iff in Hnd as [Hnotin Hnd].
  constructor; [now apply IH|].
  apply List.Forall_forall. intros y Hy. rewrite List.Forall_forall in Ha.
  apply Hstep; [now apply Ha|]. intros E. apply Hnotin. rewrite E.
  now apply in_map.
Qed.

Lemma NoDup_firstn (n : nat) (l : list A) :
  List.NoDup l -> List.NoDup (firstn n l).
Proof.
  intros H. rewrite <- (firstn_skipn n l) in H.
  now apply NoDup_app_remove_r in H.
Qed.

End SortedLists.

(** ** The summarizer *)

Section Ranking.

Lemma enumerate_from_in {A} (l : list A) (i j : Z) (x : A) :
  In (j, x) (Py.enumerate_from i l) ->
  i <= j /\ nth_error l (Z.to_nat (j - i)) = Some x.
Proof.
  revert i; induction l as [|y l IH]; intros i; simpl; [contradiction|].
  intros [E|H].
  - injection E as <- <-. rewrite Z.sub_diag. split; [lia | reflexivity].
  - apply IH in H as [Hle Hnth]. split; [lia|].
    replace (Z.to_nat (j - i)) with (S (Z.to_nat (j - (i + 1)))) by lia.
    exact Hnth.
Qed.

Lemma enumerate_from_NoDup {A} (l : list A) (i : Z) :
  List.NoDup (map fst (Py.enumerate_from i l)).
Proof.
  revert i; induction l as [|y l IH]; intros i; simpl; constructor; [|apply IH].
  intros H. apply in_map_iff in H as [[j x] [E H]]. simpl in E. subst j.
  apply enumerate_from_in in H. lia.
Qed.

Lemma score_sentences_index (word_freq : gmap string Z) (sentences : list string) :
  map tuple_index (score_sentences word_freq sentences)
  = map fst (Py.enumerate sentences).
Proof.
  unfold score_sentences. rewrite map_map. apply map_ext. now intros [i s].
Qed.

(** A scored tuple carries the sentence that stands at its index. *)
Lemma score_sentences_in (word_freq : gmap string Z) (sentences : list string)
    (x : Z * Z * string) :
  In x (score_sentences word_freq sentences) ->
  0 <= tuple_index x /\
  nth_error sentences (Z.to_nat (tuple_index x)) = Some (tuple_sentence x).
Proof.
  unfold score_sentences. intros H. apply in_map_iff in H as [[i s] [<- H]].
  apply enumerate_from_in in H. rewrite Z.sub_0_r in H. exact H.
Qed.

Lemma key_le_trans (a b c : Z * Z * string) :
  key_le a b -> key_le b c -> key_le a c.
Proof. unfold key_le. lia. Qed.

Lemma tuple_lt_key_le (a b : Z * Z * string) :
  Py.tuple_lt a b = true -> key_le a b.
Proof.
  destruct a as [[s1 i1] t1], b as [[s2 i2] t2].
  unfold Py.tuple_lt, key_le, tuple_score, tuple_index. simpl.
  destruct (Z.eqb_spec s1 s2), (Z.eqb_spec i1 i2); simpl; lia.
Qed.

Lemma not_tuple_lt_key_le (a b : Z * Z * string) :
  Py.tuple_lt a b = false -> key_le b a.
Proof.
  destruct a as [[s1 i1] t1], b as [[s2 i2] t2].
  unfold Py.tuple_lt, key_le, tuple_score, tuple_index. simpl.
  destruct (Z.eqb_spec s1 s2), (Z.eqb_spec i1 i2); simpl; lia.
Qed.

Lemma slice_to_firstn {A} (l : list A) (k : Z) :
  exists n, Py.slice_to l k = firstn n l.
Proof. unfold Py.slice_to. destruct (0 <=? k); eexists; reflexivity. Qed.

(** The ranking holds the scored sentences, each once. *)
Lemma rank_sentences_perm (sentences : list string) :
  Permutation (rank_sentences sentences)
              (score_sentences (count_words sentences) sentences).
Proof.
  unfold rank_sentences, Py.list_sort.
  rewrite <- Permutation_rev, stable_sort_perm. symmetry. apply Permutation_rev.
Qed.

Lemma rank_sentences_NoDup (sentences : list string) :
  List.NoDup (map tuple_index (rank_sentences sentences)).
Proof.
  eapply Permutation_NoDup.
  - symmetry. apply Permutation_map, rank_sentences_perm.
  - rewrite score_sentences_index. apply enumerate_from_NoDup.
Qed.

(** The ranking runs by score descending and, on equal scores, by index
    descending. *)
Lemma rank_sentences_sorted (sentences : list string) :
  StronglySorted later_wins_ties (rank_sentences sentences).
Proof.
  apply (sorted_strengthen tuple_index (fun a b => key_le b a)).
  - unfold key_le, later_wins_ties. intros x y H Hne. lia.
  - apply rank_sentences_NoDup.
  - unfold rank_sentences, Py.list_sort. apply sorted_rev.
    apply (stable_sort_sorted Py.tuple_lt key_le).
    + exact key_le_trans.
    + exact tuple_lt_key_le.
    + exact not_tuple_lt_key_le.
Qed.

Lemma top_sentences_perm (sentences : list string) (max_sentences : Z) :
  Permutation (top_sentences sentences max_sentences)
              (Py.slice_to (rank_sentences sentences) max_sentences).
Proof. apply stable_sort_perm. Qed.

Lemma top_sentences_in (sentences : list string) (max_sentences : Z)
    (x : Z * Z * string) :
  In x (top_sentences sentences max_sentences) ->
  In x (score_sentences (count_words sentences) sentences).
Proof.
  intros H. apply (Permutation_in _ (top_sentences_perm _ _)) in H.
  destruct (slice_to_firstn (rank_sentences sentences) max_sentences) as [n E].
  rewrite E in H. apply in_firstn in H.
  exact (Permutation_in _ (rank_sentences_perm _) H).
Qed.

(** The selected tuples stand by index ascending, no index twice. *)
Lemma top_sentences_sorted (sentences : list string) (max_sentences : Z) :
  StronglySorted (fun a b => tuple_index a < tuple_index b)
                 (top_sentences sentences max_sentences).
Proof.
  apply (sorted_strengthen tuple_index
           (fun a b => tuple_index a <= tuple_index b)).
  - intros x y H Hne. lia.
  - eapply Permutation_NoDup.
    + symmetry. apply Permutation_map, top_sentences_perm.
    + destruct (slice_to_firstn (rank_sentences sentences) max_sentences) as [n E].
      rewrite E, <- firstn_map. apply NoDup_firstn, rank_sentences_NoDup.
  - unfold top_sentences, Py.sorted_by_key.
    apply (stable_sort_sorted _ (fun a b => tuple_index a <= tuple_index b)).
    + intros a b c. lia.
    + intros a b H. apply Z.ltb_lt in H. unfold tuple_index. lia.
    + intros a b H. apply Z.ltb_ge in H. unfold tuple_index. lia.
Qed.

Lemma sorted_map {A B} (f : A -> B) (R : B -> B -> Prop) (l : list A) :
  StronglySorted (fun a b => R (f a) (f b)) l -> StronglySorted R (map f l).
Proof.
  induction 1 as [|a l Hl IH Ha]; simpl; constructor; [exact IH|].
  apply List.Forall_forall. intros y Hy. apply in_map_iff in Hy as [x [<- Hx]].
  rewrite List.Forall_forall in Ha. now apply Ha.
Qed.

(** What [generate_summary] computes past the guard and the short cut. *)
Lemma generate_summary_ranked (text : string) (max_sentences : Z) :
  text <> EmptyString ->
  max_sentences < Z.of_nat (length (split_sentences text)) ->
  generate_summary (Some text) max_sentences
  = Py.str_join ". "
      (map tuple_sentence (top_sentences (split_sentences text) max_sentences))
    +:+ ".".
Proof.
  intros Hne Hmore. destruct text as [|c r]; [contradiction|].
  unfold generate_summary.
  destruct (Z.leb_spec (Z.of_nat (length (split_sentences (String c r))))
                       max_sentences) as [Hle|_]; [lia|].
  do 2 f_equal. apply map_ext. now intros [[s i] t].
Qed.

End Ranking.

Section Trimming.

Local Open Scope string_scope.

Lemma str_lstrip_spec (s : string) :
  (exists l, s = l +:+ Py.str_lstrip s /\ all_space l = true)
  /\ not_space (str_first (Py.str_lstrip s)).
Proof.
  induction s as [|c s [[l [Hl Hsp]] Hfirst]]; simpl.
  - split; [now exists "" | exact I].
  - destruct (Py.uni_isspace c) eqn:E.
    + split; [|exact Hfirst]. exists (String c l). simpl. rewrite E, Hsp.
      split; [now rewrite <- Hl | reflexivity].
    + split; [now exists "" | exact E].
Qed.

Lemma str_rstrip_spec (s : string) :
  (exists r, s = Py.str_rstrip s +:+ r /\ all_space r = true)
  /\ not_space (str_last (Py.str_rstrip s)).
Proof.
  induction s as [|c s [[r [Hr Hsp]] Hlast]]; simpl.
  - split; [now exists "" | exact I].
  - destruct (Py.str_rstrip s) as [|d s'] eqn:Es.
    + destruct (Py.uni_isspace c) eqn:E.
      * split; [|exact I]. exists (String c r). simpl. rewrite E, Hsp.
        split; [now rewrite Hr | reflexivity].
      * split; [|exact E]. exists r. simpl. split; [now rewrite Hr | exact Hsp].
    + split; [|exact Hlast]. exists r. split; [|exact Hsp].
      simpl. simpl in Hr. now rewrite Hr.
Qed.

Lemma str_rstrip_first (s : string) :
  not_space (str_first s) -> not_space (str_first (Py.str_rstrip s)).
Proof.
  destruct s as [|c s]; simpl; [trivial|]. intros Hc.
  destruct (Py.str_rstrip s); [rewrite Hc|]; exact Hc.
Qed.

(** [str_strip] removes white space at the two ends and nothing else. *)
Lemma str_strip_spec (piece : string) : is_trim_of (Py.str_strip piece) piece.
Proof.
  unfold is_trim_of, Py.str_strip.
  destruct (str_lstrip_spec piece) as [[l [Hl Hlsp]] Hfirst].
  destruct (str_rstrip_spec (Py.str_lstrip piece)) as [[r [Hr Hrsp]] Hlast].
  split; [|split; [now apply str_rstrip_first | exact Hlast]].
  exists l, r. split; [|now split]. rewrite <- Hr. exact Hl.
Qed.

End Trimming.

Section SummarizerClaims.

Local Open Scope string_scope.

(** C1, as the code has it. When the text is not empty and more than
    [max_sentences] sentences survive, the summary is built from the first
    [max_sentences] entries of a ranking that holds every scored sentence
    once and runs by score descending and, among sentences of equal score,
    by original index descending: a tie goes to the later sentence. *)
Theorem ranking_by_score_then_later_index
    (text : string) (max_sentences : Z)
    (Hne : text <> "")
    (Hmore : max_sentences < Z.of_nat (length (split_sentences text))) :
  generate_summary (Some text) max_sentences
  = Py.str_join ". "
      (map tuple_sentence
         (Py.sorted_by_key tuple_index
            (Py.slice_to (rank_sentences (split_sentences text)) max_sentences)))
    +:+ "." /\
  Permutation
    (rank_sentences (split_sentences text))
    (score_sentences (count_words (split_sentences text)) (split_sentences text)) /\
  StronglySorted later_wins_ties (rank_sentences (split_sentences text)).
Proof.
  split; [|split].
  - now apply generate_summary_ranked.
  - apply rank_sentences_perm.
  - apply rank_sentences_sorted.
Qed.

(** C6. A text that is not empty is split at each period, so that the
    pieces, joined by periods, give the text back and hold no period; each
    piece is trimmed of white space at its two ends; the pieces whose
    trimmed length is above 20 survive, trimmed and in order; and when at
    most [max_sentences] of them survive the text itself is returned. *)
Theorem few_sentences_return_text_unchanged
    (text : string) (max_sentences : Z)
    (Hne : text <> "")
    (Hfew : Z.of_nat (length (split_sentences text)) <= max_sentences) :
  Py.str_join "." (Py.str_split "." text) = text /\
  Forall (fun piece => str_has "." piece = false) (Py.str_split "." text) /\
  Forall (fun piece => is_trim_of (Py.str_strip piece) piece)
         (Py.str_split "." text) /\
  split_sentences text
  = map Py.str_strip
      (List.filter (fun piece => (20 <? Py.len (Py.str_strip piece))%Z)
                   (Py.str_split "." text)) /\
  Forall (fun s => 20 < Py.len s) (split_sentences text) /\
  generate_summary (Some text) max_sentences = text.
Proof.
  split; [apply str_join_split|].
  split; [apply str_split_no_sep|].
  split; [apply List.Forall_forall; intros piece _; apply str_strip_spec|].
  split; [reflexivity|].
  split.
  - apply List.Forall_forall. intros s Hs. unfold split_sentences in Hs.
    apply in_map_iff in Hs as [piece [<- Hp]].
    apply filter_In in Hp as [_ Hlen]. now apply Z.ltb_lt in Hlen.
  - destruct text as [|c r]; [contradiction|].
    unfold generate_summary.
    destruct (Z.leb_spec (Z.of_nat (length (split_sentences (String c r))))
                         max_sentences) as [_|Hgt]; [reflexivity | lia].
Qed.

(** C7. When the text is not empty and more than [max_sentences] sentences
    survive, the summary joins the selected sentences in the order of
    their original indices: the indices are strictly increasing, and each
    selected sentence is the surviving sentence at its index. *)
Theorem summary_in_document_order
    (text : string) (max_sentences : Z)
    (Hne : text <> "")
    (Hmore : max_sentences < Z.of_nat (length (split_sentences text))) :
  generate_summary (Some text) max_sentences
  = Py.str_join ". "
      (map tuple_sentence (top_sentences (split_sentences text) max_sentences))
    +:+ "." /\
  StronglySorted Z.lt
    (map tuple_index (top_sentences (split_sentences text) max_sentences)) /\
  Forall (fun x =>
            0 <= tuple_index x /\
            nth_error (split_sentences text) (Z.to_nat (tuple_index x))
            = Some (tuple_sentence x))
         (top_sentences (split_sentences text) max_sentences).
Proof.
  split; [|split].
  - now apply generate_summary_ranked.
  - apply sorted_map, top_sentences_sorted.
  - apply List.Forall_forall. intros x Hx.
    eapply score_sentences_in, top_sentences_in, Hx.
Qed.

(** C8. On [None] and on the empty string the summary is the fixed
    sentence "No text provided for summarization.", whatever
    [max_sentences] is, and that sentence is not the empty string. *)
Theorem no_text_gives_sentinel (max_sentences : Z) :
  generate_summary None max_sentences = "No text provided for summarization." /\
  generate_summary (Some "") max_sentences = "No text provided for summarization." /\
  generate_summary None max_sentences <> "" /\
  generate_summary (Some "") max_sentences <> "".
Proof.
  split; [reflexivity|]. split; [reflexivity|]. split; discriminate.
Qed.

(** C10. With [max_sentences = 0] and a text in which at least one
    sentence survives, the short cut is not taken, no sentence is selected
    and the summary is the lone period ".". *)
Theorem zero_sentences_give_lone_period
    (text : string)
    (Hsome : (1 <= length (split_sentences text))%nat) :
  text <> "" /\
  (Z.of_nat (length (split_sentences text)) <=? 0)%Z = false /\
  top_sentences (split_sentences text) 0 = [] /\
  generate_summary (Some text) 0 = ".".
Proof.
  assert (Hne : text <> "").
  { intros ->. vm_compute in Hsome. lia. }
  split; [exact Hne|]. split; [apply Z.leb_gt; lia|]. split; [reflexivity|].
  rewrite generate_summary_ranked by (trivial; lia). reflexivity.
Qed.

End SummarizerClaims.

(** ** Concrete runs *)

Section Runs.

Local Open Scope string_scope.

Example bad_and_terrible_is_negative :
  analyze_sentiment (Some "This is bad and terrible")
  = {| label := negative; confidence := 0.7; polarity := -0.5 |}.
Proof. vm_compute. reflexivity. Qed.

Example the_sky_is_blue_is_neutral :
  analyze_sentiment (Some "The sky is blue")
  = {| label := neutral; confidence := 0.5; polarity := 0.0 |}.
Proof. vm_compute. reflexivity. Qed.

(** Substring matching: "badly" counts as a hit of "bad". *)
Example badly_matches_bad :
  label (analyze_sentiment (Some "It went badly")) = negative.
Proof. vm_compute. reflexivity. Qed.

(** Three sentences survive; the two with the highest scores are kept and
    stand in the order of the text. *)
Example summary_of_three_sentences :
  generate_summary
    (Some "The committee reviewed the budget proposal. The budget proposal was reviewed again. Nothing else happened in the meeting today. ok.")
    2
  = "The committee reviewed the budget proposal. The budget proposal was reviewed again.".
Proof. vm_compute. reflexivity. Qed.

(** The default [max_sentences=3] returns a text of three sentences as it is. *)
Example default_call_returns_short_text :
  generate_summary_default
    (Some "The committee reviewed the budget proposal. The budget proposal was reviewed again. Nothing else happened in the meeting today. ok.")
  = "The committee reviewed the budget proposal. The budget proposal was reviewed again. Nothing else happened in the meeting today. ok.".
Proof. vm_compute. reflexivity. Qed.

(** C1, counterexample. Two sentences survive and both score 5. The
    ranking puts the second sentence (index 1) first, which is not the
    order "score descending, then index ascending", and with
    [max_sentences = 1] the summary is the second sentence. *)
Lemma tie_goes_to_later_sentence :
  rank_sentences
    (split_sentences
       "The budget proposal was reviewed. The committee reviewed the budget.")
  = [ (5, 1, "The committee reviewed the budget");
      (5, 0, "The budget proposal was reviewed") ] /\
  ~ StronglySorted earlier_wins_ties
      (rank_sentences
         (split_sentences
            "The budget proposal was reviewed. The committee reviewed the budget.")) /\
  generate_summary
    (Some "The budget proposal was reviewed. The committee reviewed the budget.") 1
  = "The committee reviewed the budget.".
Proof.
  assert (E : rank_sentences
                (split_sentences
                   "The budget proposal was reviewed. The committee reviewed the budget.")
              = [ (5, 1, "The committee reviewed the budget");
                  (5, 0, "The budget proposal was reviewed") ])
    by (vm_compute; reflexivity).
  split; [exact E|]. split; [|vm_compute; reflexivity].
  rewrite E. intros H. inversion H as [|a l _ Hall]; subst.
  inversion Hall as [|b l' Hab _]; subst.
  unfold earlier_wins_ties, tuple_score, tuple_index in Hab. simpl in Hab. lia.
Qed.

(** C1, witness: the same text with [max_sentences = 1]. *)
Lemma ranking_by_score_then_later_index_witness :
  "The budget proposal was reviewed. The committee reviewed the budget." <> "" /\
  1 < Z.of_nat
        (length
           (split_sentences
              "The budget proposal was reviewed. The committee reviewed the budget.")) /\
  StronglySorted later_wins_ties
    (rank_sentences
       (split_sentences
          "The budget proposal was reviewed. The committee reviewed the budget.")).
Proof.
  split; [discriminate|]. split; [vm_compute; reflexivity|].
  apply (ranking_by_score_then_later_index
           "The budget proposal was reviewed. The committee reviewed the budget." 1);
    [discriminate | vm_compute; reflexivity].
Defined.

(** C6, witness: two sentences survive and [max_sentences = 3]. *)
Lemma few_sentences_return_text_unchanged_witness :
  "The budget proposal was reviewed. The committee reviewed the budget." <> "" /\
  Z.of_nat
    (length
       (split_sentences
          "The budget proposal was reviewed. The committee reviewed the budget."))
  <= 3 /\
  generate_summary
    (Some "The budget proposal was reviewed. The committee reviewed the budget.") 3
  = "The budget proposal was reviewed. The committee reviewed the budget.".
Proof.
  split; [discriminate|]. split; [vm_compute; discriminate|].
  apply (few_sentences_return_text_unchanged
           "The budget proposal was reviewed. The committee reviewed the budget." 3);
    [discriminate | vm_compute; discriminate].
Defined.

(** C7, witness: three sentences survive and [max_sentences = 2]. *)
Lemma summary_in_document_order_witness :
  "The committee reviewed the budget proposal. The budget proposal was reviewed again. Nothing else happened in the meeting today. ok."
  <> "" /\
  2 < Z.of_nat
        (length
           (split_sentences
              "The committee reviewed the budget proposal. The budget proposal was reviewed again. Nothing else happened in the meeting today. ok.")) /\
  StronglySorted Z.lt
    (map tuple_index
       (top_sentences
          (split_sentences
             "The committee reviewed the budget proposal. The budget proposal was reviewed again. Nothing else happened in the meeting today. ok.")
          2)).
Proof.
  split; [discriminate|]. split; [vm_compute; reflexivity|].
  apply (summary_in_document_order
           "The committee reviewed the budget proposal. The budget proposal was reviewed again. Nothing else happened in the meeting today. ok."
           2);
    [discriminate | vm_compute; reflexivity].
Defined.

(** C10, witness: one sentence survives. *)
Lemma zero_sentences_give_lone_period_witness :
  (1 <= length (split_sentences "The committee reviewed the budget."))%nat /\
  generate_summary (Some "The committee reviewed the budget.") 0 = ".".
Proof.
  split; [vm_compute; lia|].
  apply (zero_sentences_give_lone_period "The committee reviewed the budget.").
  vm_compute. lia.
Defined.

(** C9, witness: "I dislike it" holds "dislike" and, inside it, "like". *)
Lemma embedded_positive_entry_gives_neutral_witness :
  Py.str_contains "dislike" (Py.str_lower "I dislike it") = true /\
  analyze_sentiment (Some "I dislike it")
  = {| label := neutral; confidence := 0.5; polarity := 0.0 |}.
Proof.
  split; [vm_compute; reflexivity|].
  apply (embedded_positive_entry_gives_neutral "I dislike it" "dislike" "like").
  - simpl. auto.
  - vm_compute. reflexivity.
  - only_hit.
  - only_hit.
Defined.

End Runs.

(** ** More on the sentiment analyzer *)

Section SentimentTable.

Local Open Scope string_scope.

Lemma map_eq_pointwise {A B} (f g : A -> B) (l : list A) (x : A) :
  map f l = map g l -> In x l -> f x = g x.
Proof.
  induction l as [|y l IH]; simpl; [contradiction|].
  intros E [<-|H]; injection E as E1 E2; [exact E1 | now apply IH].
Qed.

(** On the counts that the lexicons allow, the floating-point result is
    the decimal one of the table. *)
Lemma result_of_counts_table (p n : Z) :
  0 <= p <= Z.of_nat (length positive_words) ->
  0 <= n <= Z.of_nat (length negative_words) ->
  result_of_counts p n = result_for_difference (p - n).
Proof.
  intros Hp Hn.
  apply (map_eq_pointwise
           (fun pn => result_of_counts (fst pn) (snd pn))
           (fun pn => result_for_difference (fst pn - snd pn))
           count_domain (p, n)).
  - vm_compute. reflexivity.
  - apply in_prod; apply in_upto; lia.
Qed.

Lemma str_lower_empty (t : string) : Py.str_lower t = "" -> t = "".
Proof. destruct t; [reflexivity | discriminate]. Qed.

Lemma uni_lower_idem (c : ascii) : Py.uni_lower (Py.uni_lower c) = Py.uni_lower c.
Proof. destruct c as [[] [] [] [] [] [] [] []]; vm_compute; reflexivity. Qed.

Lemma str_lower_idem (t : string) : Py.str_lower (Py.str_lower t) = Py.str_lower t.
Proof.
  induction t as [|c t IH]; simpl; [reflexivity|].
  now rewrite uni_lower_idem, IH.
Qed.




End SentimentTable.

Section SentimentExtras.

Local Open Scope string_scope.

(** X1. For a text that is not empty the result is read off the decimal
    table at the difference of the positive and the negative count: the
    polarity is one of 0.0, +-0.4, +-0.5, +-0.6, +-0.7, +-0.8 and the
    confidence one of 0.5, 0.6, 0.7, 0.8, 0.9, 1.0, with no floating-point
    residue, and both are held from a difference of 5 on. *)
Theorem sentiment_follows_decimal_table (text : string) (Hne : text <> "") :
  analyze_sentiment (Some text)
  = result_for_difference
      (count_matches positive_words (Py.str_lower text)
       - count_matches negative_words (Py.str_lower text)).
Proof.
  destruct text as [|c r]; [contradiction|].
  rewrite analyze_sentiment_nonempty.
  apply result_of_counts_table; apply count_matches_bounds.
Qed.


(** X3. Letter case is ignored: two texts with the same lowered form get
    the same result, and so does a text and its lowered form. *)
Theorem letter_case_is_ignored (a b : string)
    (Hsame : Py.str_lower a = Py.str_lower b) :
  analyze_sentiment (Some a) = analyze_sentiment (Some b) /\
  analyze_sentiment (Some (Py.str_lower a)) = analyze_sentiment (Some a).
Proof.
  assert (Hgen : forall x y, Py.str_lower x = Py.str_lower y ->
                   analyze_sentiment (Some x) = analyze_sentiment (Some y)).
  { intros x y E. destruct x as [|c r], y as [|d s]; try discriminate E;
      [reflexivity|].
    rewrite !analyze_sentiment_nonempty, E. reflexivity. }
  split; [now apply Hgen | apply Hgen, str_lower_idem].
Qed.


End SentimentExtras.

(** ** More on the summarizer *)

Section Counter.

Lemma counter_of_freq (seen : list string) (word_freq : gmap string Z) (w : string) :
  counter_of seen word_freq ->
  freq word_freq w = Z.of_nat (count_occ string_dec seen w).
Proof.
  intros H. unfold freq. rewrite (H w).
  destruct (count_occ string_dec seen w); reflexivity.
Qed.

Lemma counter_of_step (seen : list string) (word_freq : gmap string Z)
    (word : string) :
  counter_of seen word_freq ->
  counter_of (seen ++ [word]) (<[word := freq word_freq word + 1]> word_freq).
Proof.
  intros H w. rewrite count_occ_app. simpl.
  destruct (string_dec word w) as [->|Hne].
  - rewrite lookup_insert_eq, (counter_of_freq seen) by exact H.
    replace (count_occ string_dec seen w + 1)%nat
      with (S (count_occ string_dec seen w)) by lia.
    f_equal. lia.
  - rewrite lookup_insert_ne by exact Hne. rewrite (H w).
    now rewrite Nat.add_0_r.
Qed.

Lemma counter_of_words (words seen : list string) (word_freq : gmap string Z) :
  counter_of seen word_freq ->
  counter_of (seen ++ List.filter counted words)
    (fold_left
       (fun word_freq word =>
          if not_stop_word word && (3 <? Py.len word)%Z
          then <[word := freq word_freq word + 1]> word_freq
          else word_freq)
       words word_freq).
Proof.
  revert seen word_freq. induction words as [|word words IH];
    intros seen word_freq H; simpl.
  - now rewrite app_nil_r.
  - unfold counted at 1.
    destruct (not_stop_word word && (3 <? Py.len word)%Z).
    + change (seen ++ word :: List.filter counted words)
        with (seen ++ [word] ++ List.filter counted words).
      rewrite app_assoc. apply IH, counter_of_step, H.
    + apply IH, H.
Qed.

Lemma counter_of_sentences (sentences : list string) (seen : list string)
    (word_freq : gmap string Z) :
  counter_of seen word_freq ->
  counter_of (seen ++ counted_words sentences)
    (fold_left
       (fun word_freq sentence =>
          let words := Py.re_findall_word (Py.str_lower sentence) in
          fold_left
            (fun word_freq word =>
               if not_stop_word word && (3 <? Py.len word)%Z
               then <[word := freq word_freq word + 1]> word_freq
               else word_freq)
            words word_freq)
       sentences word_freq).
Proof.
  revert seen word_freq. induction sentences as [|sentence sentences IH];
    intros seen word_freq H; unfold counted_words; simpl.
  - now rewrite app_nil_r.
  - rewrite app_assoc. apply IH, counter_of_words, H.
Qed.

Lemma count_words_counter (sentences : list string) :
  counter_of (counted_words sentences) (count_words sentences).
Proof.
  apply (counter_of_sentences sentences [] ∅). intros w. apply lookup_empty.
Qed.

End Counter.

Section Scores.

Lemma sum_from (l : list Z) (acc : Z) :
  fold_left Z.add l acc = acc + fold_left Z.add l 0.
Proof.
  revert acc. induction l as [|x l IH]; intros acc; simpl; [lia|].
  rewrite (IH (acc + x)), (IH (0 + x)). lia.
Qed.

Lemma sum_cons (x : Z) (l : list Z) : Py.sum (x :: l) = x + Py.sum l.
Proof. unfold Py.sum. simpl. apply sum_from. Qed.

Lemma counted_not_stop_word (w : string) : counted w = true -> not_stop_word w = true.
Proof. unfold counted. intros H. now apply andb_true_iff in H. Qed.

(** A sum of frequencies over the words that are not stop words is at
    least the number of the counted words when each of these has a
    frequency of 1 or more and no frequency is negative. *)
Lemma score_at_least_counted (word_freq : gmap string Z) (words : list string) :
  (forall w, 0 <= freq word_freq w) ->
  (forall w, In w words -> counted w = true -> 1 <= freq word_freq w) ->
  Z.of_nat (length (List.filter counted words))
  <= Py.sum (map (freq word_freq) (List.filter not_stop_word words)).
Proof.
  intros Hpos Hone. induction words as [|w words IH]; simpl.
  - unfold Py.sum. simpl. lia.
  - assert (IH' : Z.of_nat (length (List.filter counted words))
                  <= Py.sum (map (freq word_freq)
                                 (List.filter not_stop_word words))).
    { apply IH. intros v Hv. apply Hone. now right. }
    destruct (counted w) eqn:Ec.
    + rewrite (counted_not_stop_word w Ec). cbn [map length].
      rewrite sum_cons. specialize (Hone w (or_introl eq_refl) Ec). lia.
    + destruct (not_stop_word w); [|exact IH'].
      cbn [map]. rewrite sum_cons. specialize (Hpos w). lia.
Qed.

Lemma score_sentences_score (word_freq : gmap string Z) (sentences : list string)
    (x : Z * Z * string) :
  In x (score_sentences word_freq sentences) ->
  In (tuple_sentence x) sentences /\
  tuple_score x
  = Py.sum (map (freq word_freq)
                (List.filter not_stop_word (sentence_words (tuple_sentence x)))).
Proof.
  intros H. split.
  - apply score_sentences_in in H as [_ H]. eapply nth_error_In, H.
  - unfold score_sentences in H. apply in_map_iff in H as [[i s] [<- _]].
    reflexivity.
Qed.

Lemma in_counted_words (sentences : list string) (sentence w : string) :
  In sentence sentences -> In w (sentence_words sentence) -> counted w = true ->
  In w (counted_words sentences).
Proof.
  intros Hs Hw Hc. unfold counted_words. apply in_concat.
  exists (List.filter counted (sentence_words sentence)). split.
  - apply in_map_iff. now exists sentence.
  - apply filter_In. now split.
Qed.

Lemma sorted_app_cross {A} (R : A -> A -> Prop) (l1 l2 : list A) :
  StronglySorted R (l1 ++ l2) ->
  forall x y, In x l1 -> In y l2 -> R x y.
Proof.
  induction l1 as [|a l1 IH]; simpl; intros H x y Hx Hy; [contradiction|].
  inversion H as [|? ? Hs Hall]; subst. destruct Hx as [<-|Hx].
  - rewrite List.Forall_forall in Hall. apply Hall, in_or_app. now right.
  - now apply IH.
Qed.

Lemma slice_to_length {A} (l : list A) (k : Z) :
  Z.of_nat (length (Py.slice_to l k))
  = if 0 <=? k then Z.min k (Z.of_nat (length l))
    else Z.max 0 (Z.of_nat (length l) + k).
Proof.
  unfold Py.slice_to. destruct (Z.leb_spec 0 k); rewrite length_firstn; lia.
Qed.

Lemma rank_sentences_length (sentences : list string) :
  length (rank_sentences sentences) = length sentences.
Proof.
  rewrite (Permutation_length (rank_sentences_perm sentences)).
  unfold score_sentences, Py.enumerate. rewrite length_map.
  generalize 0. induction sentences as [|s l IH]; intros i; simpl;
    [reflexivity | now rewrite IH].
Qed.

End Scores.

Section SummarizerExtras.

(** X5. The counter holds, for each word, the number of its countable
    occurrences (lowered words of the surviving sentences that are not stop
    words and are longer than 3), and holds no entry for a word without
    one: there is no entry with a count of zero. *)
Theorem counter_counts_occurrences (sentences : list string) (w : string) :
  count_words sentences !! w
  = match count_occ string_dec (counted_words sentences) w with
    | O => None
    | S c => Some (Z.of_nat (S c))
    end.
Proof. apply count_words_counter. Qed.

(** X6. No score is negative: the score of a sentence is at least the
    number of its own counted words, each of which has a frequency of 1 or
    more in the counter of the same text. *)
Theorem score_at_least_own_words (sentences : list string) :
  Forall (fun x =>
            0 <= Z.of_nat (length (List.filter counted
                                     (sentence_words (tuple_sentence x))))
              <= tuple_score x)
         (score_sentences (count_words sentences) sentences).
Proof.
  apply List.Forall_forall. intros x Hx.
  apply score_sentences_score in Hx as [Hs ->]. split; [lia|].
  pose proof (count_words_counter sentences) as Hc.
  apply score_at_least_counted.
  - intros w. rewrite (counter_of_freq _ _ w Hc). lia.
  - intros w Hw Hcw. rewrite (counter_of_freq _ _ w Hc).
    pose proof (in_counted_words _ _ _ Hs Hw Hcw) as Hin.
    apply (count_occ_In string_dec) in Hin. lia.
Qed.

(** X7. The number of sentences joined into the summary: with
    [0 <= max_sentences] it is the smaller of [max_sentences] and the
    number of surviving sentences; with a negative [max_sentences] the last
    [-max_sentences] entries of the ranking are dropped and the rest, if
    any, is kept. *)
Theorem number_of_selected_sentences (sentences : list string) (max_sentences : Z) :
  Z.of_nat (length (top_sentences sentences max_sentences))
  = if 0 <=? max_sentences
    then Z.min max_sentences (Z.of_nat (length sentences))
    else Z.max 0 (Z.of_nat (length sentences) + max_sentences).
Proof.
  rewrite (Permutation_length (top_sentences_perm sentences max_sentences)).
  rewrite slice_to_length, rank_sentences_length. reflexivity.
Qed.

(** X8. The selection takes the best of the ranking: a scored sentence
    that is left out scores no higher than any selected one, and where the
    two scores are equal the one left out is the earlier sentence. *)
Theorem omitted_sentences_rank_lower
    (sentences : list string) (max_sentences : Z) (x y : Z * Z * string)
    (Hx : In x (top_sentences sentences max_sentences))
    (Hy : In y (score_sentences (count_words sentences) sentences))
    (Hout : ~ In y (top_sentences sentences max_sentences)) :
  tuple_score y <= tuple_score x /\
  (tuple_score y = tuple_score x -> tuple_index y < tuple_index x).
Proof.
  destruct (slice_to_firstn (rank_sentences sentences) max_sentences) as [n E].
  pose proof (top_sentences_perm sentences max_sentences) as Hperm.
  rewrite E in Hperm.
  assert (Hx' : In x (firstn n (rank_sentences sentences)))
    by exact (Permutation_in _ Hperm Hx).
  assert (Hy' : In y (skipn n (rank_sentences sentences))).
  { apply (Permutation_in _ (Permutation_sym (rank_sentences_perm _))) in Hy.
    rewrite <- (firstn_skipn n (rank_sentences sentences)) in Hy.
    apply in_app_or in Hy as [Hy|Hy]; [|exact Hy].
    exfalso. apply Hout. exact (Permutation_in _ (Permutation_sym Hperm) Hy). }
  pose proof (rank_sentences_sorted sentences) as Hs.
  rewrite <- (firstn_skipn n (rank_sentences sentences)) in Hs.
  pose proof (sorted_app_cross _ _ _ Hs x y Hx' Hy') as H.
  unfold later_wins_ties in H. lia.
Qed.

(** X9. The summary is never the empty string, whatever the text and
    whatever [max_sentences]. *)
Theorem summary_is_never_empty (text : option string) (max_sentences : Z) :
  generate_summary text max_sentences <> EmptyString.
Proof.
  destruct text as [[|c r]|]; try discriminate.
  unfold generate_summary.
  destruct (Z.of_nat (length (split_sentences (String c r))) <=? max_sentences);
    [discriminate|].
  destruct (Py.str_join _ _); discriminate.
Qed.

End SummarizerExtras.

Section Resummarize.

Local Open Scope string_scope.
Local Open Scope list_scope.

Lemma str_has_app (c : ascii) (a b : string) :
  str_has c (a +:+ b) = str_has c a || str_has c b.
Proof.
  induction a as [|x a IH]; simpl; [reflexivity|].
  now rewrite IH, orb_assoc.
Qed.

Lemma str_split_app (sep : ascii) (a b : string) :
  str_has sep a = false ->
  Py.str_split sep (a +:+ String sep b) = a :: Py.str_split sep b.
Proof.
  induction a as [|c a IH]; simpl; intros H.
  - now rewrite Ascii.eqb_refl.
  - apply orb_false_iff in H as [Hc Ha]. rewrite Hc, (IH Ha). reflexivity.
Qed.

Lemma str_lstrip_id (s : string) :
  not_space (str_first s) -> Py.str_lstrip s = s.
Proof. destruct s as [|c s]; simpl; [reflexivity|]. now intros ->. Qed.

Lemma str_rstrip_id (s : string) :
  not_space (str_last s) -> Py.str_rstrip s = s.
Proof.
  induction s as [|c s IH]; [reflexivity|].
  destruct s as [|d s].
  - simpl. now intros ->.
  - intros H. change (not_space (str_last (String d s))) in H.
    specialize (IH H). remember (String d s) as r eqn:Er.
    simpl. rewrite IH, Er. reflexivity.
Qed.

Lemma str_strip_clean (s : string) :
  clean_sentence s -> Py.str_strip s = s /\ Py.str_strip (String " " s) = s.
Proof.
  intros (_ & Hfirst & Hlast & _).
  assert (E : Py.str_strip s = s).
  { unfold Py.str_strip. rewrite (str_lstrip_id s Hfirst).
    apply str_rstrip_id, Hlast. }
  split; [exact E|]. exact E.
Qed.

(** Every surviving sentence is clean. *)
Lemma split_sentences_clean (text : string) :
  Forall clean_sentence (split_sentences text).
Proof.
  apply List.Forall_forall. intros s Hs. unfold split_sentences in Hs.
  apply in_map_iff in Hs as [piece [<- Hp]].
  apply filter_In in Hp as [Hp Hlen]. apply Z.ltb_lt in Hlen.
  pose proof (str_split_no_sep "." text) as Hno.
  rewrite List.Forall_forall in Hno. specialize (Hno piece Hp).
  destruct (str_strip_spec piece) as [[l [r [E _]]] [Hfirst Hlast]].
  rewrite E, !str_has_app in Hno.
  apply orb_false_iff in Hno as [_ Hno]. apply orb_false_iff in Hno as [Hno _].
  repeat split; assumption.
Qed.

(** The pieces of a summary: the sentences, all but the first after a
    space, and an empty piece after the last period. *)
Lemma str_split_summary (pre s : string) (rest : list string) :
  str_has "." pre = false ->
  Forall clean_sentence (s :: rest) ->
  Py.str_split "." (pre +:+ Py.str_join ". " (s :: rest) +:+ ".")
  = (pre +:+ s) :: map (String " ") rest ++ [""].
Proof.
  revert pre s. induction rest as [|s' rest IH]; intros pre s Hpre Hall.
  - inversion Hall as [|? ? (Hs & _) _]; subst.
    change (Py.str_join ". " [s]) with s.
    rewrite <- append_assoc. rewrite (str_split_app "." (pre +:+ s) "").
    + reflexivity.
    + rewrite str_has_app, Hpre, Hs. reflexivity.
  - inversion Hall as [|? ? (Hs & _) Hrest]; subst.
    rewrite str_join_cons.
    replace (pre +:+ (s +:+ ". " +:+ Py.str_join ". " (s' :: rest)) +:+ ".")
      with ((pre +:+ s)
            +:+ String "." (" " +:+ Py.str_join ". " (s' :: rest) +:+ ".")).
    + rewrite str_split_app by (rewrite str_has_app, Hpre, Hs; reflexivity).
      rewrite (IH " " s' eq_refl Hrest). reflexivity.
    + rewrite !append_assoc. reflexivity.
Qed.

Lemma strip_spaced_sentences (rest : list string) :
  Forall clean_sentence rest ->
  map Py.str_strip
      (List.filter (fun s => (20 <? Py.len (Py.str_strip s))%Z)
                   (map (String " ") rest ++ [""]))
  = rest.
Proof.
  induction 1 as [|s rest Hs Hrest IH]; [reflexivity|].
  cbn [map app List.filter].
  destruct (str_strip_clean s Hs) as [_ E]. rewrite E.
  destruct Hs as (_ & _ & _ & Hlen).
  apply Z.ltb_lt in Hlen. rewrite Hlen. cbn [map]. now rewrite E, IH.
Qed.

(** Splitting a summary gives back the sentences it was joined from. *)
Lemma split_sentences_summary (selected : list string) :
  Forall clean_sentence selected ->
  split_sentences (Py.str_join ". " selected +:+ ".") = selected.
Proof.
  intros Hall. destruct selected as [|s rest]; [reflexivity|].
  unfold split_sentences.
  change (Py.str_join ". " (s :: rest) +:+ ".")
    with ("" +:+ Py.str_join ". " (s :: rest) +:+ ".").
  rewrite (str_split_summary "" s rest eq_refl Hall).
  change ("" +:+ s) with s. cbn [List.filter].
  inversion Hall as [|? ? Hs Hrest]; subst.
  destruct (str_strip_clean s Hs) as [E _]. rewrite E.
  destruct Hs as (_ & _ & _ & Hlen).
  apply Z.ltb_lt in Hlen. rewrite Hlen. cbn [map].
  now rewrite E, strip_spaced_sentences.
Qed.

Lemma generate_summary_short (text : string) (max_sentences : Z) :
  text <> "" ->
  Z.of_nat (length (split_sentences text)) <= max_sentences ->
  generate_summary (Some text) max_sentences = text.
Proof.
  intros Hne Hle. destruct text as [|c r]; [contradiction|].
  unfold generate_summary.
  destruct (Z.leb_spec (Z.of_nat (length (split_sentences (String c r))))
                       max_sentences); [reflexivity | lia].
Qed.

(** The sentences that are joined into the summary are surviving ones. *)
Lemma selected_sentences_clean (text : string) (max_sentences : Z) :
  Forall clean_sentence
    (map tuple_sentence (top_sentences (split_sentences text) max_sentences)).
Proof.
  apply List.Forall_forall. intros s Hs. apply in_map_iff in Hs as [x [<- Hx]].
  apply top_sentences_in, score_sentences_score in Hx as [Hx _].
  pose proof (split_sentences_clean text) as Hall.
  rewrite List.Forall_forall in Hall. now apply Hall.
Qed.

End Resummarize.

Section ResummarizeExtras.

Local Open Scope string_scope.

(** X10. Summarising a summary changes nothing: for [1 <= max_sentences]
    and every input, [None] included, the summary of the summary, with the
    same [max_sentences], is the summary. *)
Theorem summary_of_summary_is_summary
    (text : option string) (max_sentences : Z)
    (Hpos : 1 <= max_sentences) :
  generate_summary (Some (generate_summary text max_sentences)) max_sentences
  = generate_summary text max_sentences.
Proof.
  assert (Hsentinel :
            generate_summary (Some "No text provided for summarization.")
                             max_sentences
            = "No text provided for summarization.").
  { apply generate_summary_short; [discriminate|]. vm_compute (Z.of_nat _). lia. }
  destruct text as [[|c r]|]; try exact Hsentinel.
  destruct (Z.le_gt_cases (Z.of_nat (length (split_sentences (String c r))))
                          max_sentences) as [Hle|Hgt].
  - rewrite (generate_summary_short (String c r)) by (discriminate || exact Hle).
    apply generate_summary_short; [discriminate | exact Hle].
  - rewrite (generate_summary_ranked (String c r)) by (discriminate || lia).
    apply generate_summary_short.
    + destruct (Py.str_join _ _); discriminate.
    + rewrite split_sentences_summary by apply selected_sentences_clean.
      rewrite length_map.
      rewrite (Permutation_length (top_sentences_perm _ _)), slice_to_length.
      destruct (Z.leb_spec 0 max_sentences); lia.
Qed.

End ResummarizeExtras.

(** ** The upload route *)

Section Rows.

Local Open Scope string_scope.
Local Open Scope list_scope.

Lemma find_text_column_in (row : Row) (t : string) :
  find_text_column row = Some t -> exists key, In (key, Some t) row.
Proof.
  induction row as [|[key value] row IH]; simpl; [discriminate|].
  destruct (names_text_column key).
  - intros ->. exists key. now left.
  - intros H. destruct (IH H) as [k Hk]. exists k. now right.
Qed.

Lemma first_long_value_in (row : Row) (t : string) :
  first_long_value row = Some t -> exists key, In (key, Some t) row.
Proof.
  induction row as [|[key value] row IH]; simpl; [discriminate|].
  destruct value as [v|].
  - destruct (truthy (Some v) && (10 <? Py.len (Py.str_strip v))%Z).
    + intros E. injection E as ->. exists key. now left.
    + intros H. destruct (IH H) as [k Hk]. exists k. now right.
  - intros H. destruct (IH H) as [k Hk]. exists k. now right.
Qed.

(** A comment comes from a field of its row: its text is the trimmed
    field, longer than 5, and its id is that of the row. *)
Lemma comment_of_row_spec (i : Z) (row : Row) (c : Comment) :
  comment_of_row i row = Some c ->
  (exists key v, In (key, Some v) row /\ comment_text c = Py.str_strip v) /\
  5 < Py.len (comment_text c) /\
  comment_id c = row_get_id row i.
Proof.
  unfold comment_of_row.
  set (chosen := if negb (truthy (find_text_column row))
                      && negb (match row with [] => true | _ => false end)
                 then first_long_value row else find_text_column row).
  assert (Hin : forall t, chosen = Some t -> exists key, In (key, Some t) row).
  { intros t. unfold chosen.
    destruct (negb (truthy (find_text_column row))
              && negb (match row with [] => true | _ => false end)).
    - apply first_long_value_in.
    - apply find_text_column_in. }
  destruct chosen as [t|]; [|discriminate].
  destruct (truthy (Some t) && (5 <? Py.len (Py.str_strip t))%Z) eqn:E;
    [|discriminate].
  intros H. injection H as <-. simpl.
  apply andb_true_iff in E as [_ E]. apply Z.ltb_lt in E.
  destruct (Hin t eq_refl) as [key Hkey].
  split; [now exists key, t|]. split; [exact E | reflexivity].
Qed.

Lemma collect_from_in (numbered : list (Z * Row)) (c : Comment) :
  In c (collect_from numbered) ->
  exists i row, In (i, row) numbered /\ comment_of_row i row = Some c.
Proof.
  induction numbered as [|[i row] rest IH]; simpl; [contradiction|].
  destruct (comment_of_row i row) as [c'|] eqn:E.
  - intros [<-|H].
    + exists i, row. split; [now left | exact E].
    + destruct (IH H) as (j & r & Hj & Hr). exists j, r. split; [now right | exact Hr].
  - intros H. destruct (IH H) as (j & r & Hj & Hr).
    exists j, r. split; [now right | exact Hr].
Qed.

Lemma collect_comments_in (rows : list Row) (c : Comment) :
  In c (collect_comments rows) ->
  exists i row, In row rows /\ comment_of_row i row = Some c.
Proof.
  intros H. apply collect_from_in in H as (i & row & Hin & Hc).
  exists i, row. split; [|exact Hc].
  apply enumerate_from_in in Hin as [_ Hnth]. eapply nth_error_In, Hnth.
Qed.

Lemma collect_from_in_rev (numbered : list (Z * Row)) (i : Z) (row : Row)
    (c : Comment) :
  In (i, row) numbered -> comment_of_row i row = Some c ->
  In c (collect_from numbered).
Proof.
  induction numbered as [|[j r] rest IH]; simpl; [contradiction|].
  intros [E|H] Hc.
  - injection E as -> ->. rewrite Hc. now left.
  - destruct (comment_of_row j r); [right|]; now apply IH.
Qed.

Lemma in_enumerate_from {A} (l : list A) (x : A) (i : Z) :
  In x l -> exists j, In (j, x) (Py.enumerate_from i l).
Proof.
  revert i. induction l as [|y l IH]; intros i; simpl; [contradiction|].
  intros [->|H].
  - exists i. now left.
  - destruct (IH (i + 1) H) as [j Hj]. exists j. now right.
Qed.

Lemma str_length_app (a b : string) :
  String.length (a +:+ b) = (String.length a + String.length b)%nat.
Proof. induction a as [|c a IH]; simpl; [reflexivity | now rewrite IH]. Qed.

Lemma str_take_length (n : nat) (s : string) :
  String.length (Py.str_take n s) = Nat.min n (String.length s).
Proof.
  revert s. induction n as [|n IH]; intros [|c s]; simpl; try reflexivity.
  now rewrite IH.
Qed.

Lemma str_take_prefix (n : nat) (s : string) :
  exists rest, s = Py.str_take n s +:+ rest.
Proof.
  revert s. induction n as [|n IH]; intros s.
  - now exists s.
  - destruct s as [|c s]; [now exists ""|].
    destruct (IH s) as [rest E]. exists rest. simpl. now rewrite <- E.
Qed.

Lemma strip_nonempty_source (v : string) :
  0 < Py.len (Py.str_strip v) -> v <> "".
Proof. intros H ->. vm_compute in H. discriminate. Qed.

End Rows.

Section Tally.

Lemma labelled_cons (l : Label) (e : SentimentEntry) (results : list SentimentEntry) :
  labelled l (e :: results)
  = (if is_label (entry_sentiment e) l then 1 else 0) + labelled l results.
Proof.
  unfold labelled. simpl. destruct (is_label (entry_sentiment e) l); simpl; lia.
Qed.

Lemma tally_from (results : list SentimentEntry) (counts : Distribution)
    (total : float) :
  fst (fold_left
         (fun '(counts, total_polarity) result =>
            (count_label counts (entry_sentiment result),
             PrimFloat.add total_polarity (entry_polarity result)))
         results (counts, total))
  = {| count_positive := count_positive counts + labelled positive results;
       count_negative := count_negative counts + labelled negative results;
       count_neutral := count_neutral counts + labelled neutral results |}.
Proof.
  revert counts total. induction results as [|e results IH]; intros counts total.
  - simpl. unfold labelled. simpl. destruct counts. simpl. f_equal; lia.
  - cbn [fold_left]. rewrite IH, !labelled_cons.
    destruct (entry_sentiment e); simpl; f_equal; lia.
Qed.

Lemma labelled_total (results : list SentimentEntry) :
  labelled positive results + labelled negative results + labelled neutral results
  = Z.of_nat (length results).
Proof.
  induction results as [|e results IH]; [reflexivity|].
  rewrite !labelled_cons. cbn [length].
  destruct (entry_sentiment e); simpl; lia.
Qed.

Lemma confidence_of_table_at_least_half (d : Z) :
  PrimFloat.leb 0.5 (confidence (result_for_difference d)) = true.
Proof.
  unfold result_for_difference.
  repeat match goal with
         | |- context [if ?b then _ else _] => destruct b
         end; vm_compute; reflexivity.
Qed.

(** What the route answers when there are comments. *)
Lemma upload_and_analyze_report (rows : list Row) (report : Report) :
  upload_and_analyze rows = Analyzed report ->
  collect_comments rows <> [] /\
  sentiment_results report = map sentiment_entry (collect_comments rows) /\
  sentiment_distribution report
  = fst (tally (map sentiment_entry (collect_comments rows))) /\
  total_comments report = Z.of_nat (length (collect_comments rows)).
Proof.
  unfold upload_and_analyze.
  destruct (collect_comments rows) as [|c cs] eqn:E; [discriminate|].
  destruct (tally (map sentiment_entry (c :: cs))) as [counts total] eqn:Et.
  intros H. injection H as <-. cbn [sentiment_results sentiment_distribution
                                    total_comments fst].
  split; [discriminate|]. split; [reflexivity|]. split; [reflexivity|].
  now rewrite length_map.
Qed.



End Tally.

Section UploadExtras.

Local Open Scope string_scope.
Local Open Scope list_scope.

(** X11. Every comment that the route collects comes from a field of one
    of the rows: its text is that field with the white space at its two
    ends removed, it is longer than 5 characters, and so never empty. *)
Theorem collected_comments_are_trimmed_fields (rows : list Row) :
  Forall (fun c =>
            (exists row key v,
                In row rows /\ In (key, Some v) row /\
                comment_text c = Py.str_strip v /\
                is_trim_of (comment_text c) v) /\
            5 < Py.len (comment_text c))
         (collect_comments rows).
Proof.
  apply List.Forall_forall. intros c Hc.
  apply collect_comments_in in Hc as (i & row & Hrow & Hc).
  apply comment_of_row_spec in Hc as ((key & v & Hin & E) & Hlen & _).
  split; [|exact Hlen].
  exists row, key, v. repeat split; try assumption.
  - rewrite E. apply str_strip_spec.
  - rewrite E. apply str_strip_spec.
  - rewrite E. apply str_strip_spec.
Qed.


End UploadExtras.

Section ReportExtras.

Local Open Scope string_scope.
Local Open Scope list_scope.

(** X13. In a report the three counts of the distribution are the
    numbers of entries with each label, they add up to [total_comments],
    and [total_comments] is the number of collected comments, at least 1. *)
Theorem distribution_counts_every_entry (rows : list Row) (report : Report)
    (Hreport : upload_and_analyze rows = Analyzed report) :
  count_positive (sentiment_distribution report)
  = labelled positive (sentiment_results report) /\
  count_negative (sentiment_distribution report)
  = labelled negative (sentiment_results report) /\
  count_neutral (sentiment_distribution report)
  = labelled neutral (sentiment_results report) /\
  count_positive (sentiment_distribution report)
  + count_negative (sentiment_distribution report)
  + count_neutral (sentiment_distribution report)
  = total_comments report /\
  total_comments report = Z.of_nat (length (collect_comments rows)) /\
  1 <= total_comments report.
Proof.
  apply upload_and_analyze_report in Hreport as (Hne & -> & -> & ->).
  unfold tally. rewrite tally_from. cbn [count_positive count_negative count_neutral].
  pose proof (labelled_total (map sentiment_entry (collect_comments rows))) as Ht.
  rewrite length_map in Ht.
  assert (Hlen : (1 <= length (collect_comments rows))%nat).
  { destruct (collect_comments rows); [contradiction | simpl; lia]. }
  repeat split; lia.
Qed.

(** X14. No entry of a report carries the result for a missing text: the
    confidence of every entry is 0.5 or more, because every collected
    comment has a text that is not empty. *)
Theorem report_entries_have_confidence (rows : list Row) (report : Report)
    (Hreport : upload_and_analyze rows = Analyzed report) :
  Forall (fun e => PrimFloat.leb 0.5 (entry_confidence e) = true)
         (sentiment_results report).
Proof.
  apply upload_and_analyze_report in Hreport as (_ & -> & _ & _).
  apply List.Forall_forall. intros e He. apply in_map_iff in He as [c [<- Hc]].
  apply collect_comments_in in Hc as (i & row & _ & Hc).
  apply comment_of_row_spec in Hc as (_ & Hlen & _).
  unfold sentiment_entry. cbn [entry_confidence].
  destruct (comment_text c) as [|a r]; [vm_compute in Hlen; discriminate|].
  rewrite analyze_sentiment_nonempty, result_of_counts_table
    by apply count_matches_bounds.
  apply confidence_of_table_at_least_half.
Qed.

(** X15. The text shown for a comment is the comment when it has at most
    200 characters, and otherwise its first 200 characters followed by
    three periods: it never has more than 203 characters. *)
Theorem preview_is_bounded (text : string) :
  Py.len (preview text) <= 203 /\
  (Py.len text <= 200 -> preview text = text) /\
  (200 < Py.len text ->
   exists head rest,
     text = head +:+ rest /\ Py.len head = 200 /\
     preview text = head +:+ "...").
Proof.
  unfold preview, Py.len.
  destruct (Z.ltb_spec 200 (Z.of_nat (String.length text))) as [Hlong|Hshort].
  - split; [|split; [lia|]].
    + unfold Py.str_slice_to. change (0 <=? 200)%Z with true. cbv iota.
      rewrite str_length_app, str_take_length. simpl String.length. lia.
    + intros _. exists (Py.str_take 200 text).
      destruct (str_take_prefix 200 text) as [rest E]. exists rest.
      split; [exact E|]. split; [|reflexivity].
      rewrite str_take_length. lia.
  - split; [lia|]. split; [reflexivity | lia].
Qed.


(** X17. A row whose first text column (a column with "comment", "text",
    "feedback", "suggestion" or "remarks" in its name, in any letter case)
    holds more than 5 characters after trimming gives a comment with that
    trimmed text, and the answer is a report. *)
Theorem text_column_gives_comment (rows : list Row) (row : Row) (v : string)
    (Hrow : In row rows)
    (Hcol : find_text_column row = Some v)
    (Hlen : 5 < Py.len (Py.str_strip v)) :
  In (Py.str_strip v) (map comment_text (collect_comments rows)) /\
  exists report, upload_and_analyze rows = Analyzed report.
Proof.
  assert (Hv : v <> "") by (apply strip_nonempty_source; lia).
  destruct (in_enumerate_from rows row 1 Hrow) as [i Hi].
  assert (Hc : comment_of_row i row
               = Some {| comment_id := row_get_id row i;
                         comment_text := Py.str_strip v |}).
  { unfold comment_of_row. rewrite Hcol.
    destruct v as [|a r]; [contradiction|]. cbn [truthy negb andb].
    apply Z.ltb_lt in Hlen. now rewrite Hlen. }
  pose proof (collect_from_in_rev _ _ _ _ Hi Hc) as Hin.
  fold (collect_comments rows) in Hin.
  split.
  - apply in_map_iff. eexists. split; [|exact Hin]. reflexivity.
  - unfold upload_and_analyze.
    destruct (collect_comments rows) as [|c cs]; [contradiction|].
    destruct (tally _) as [counts total]. eexists. reflexivity.
Qed.

End ReportExtras.

Section Verbatim.

Local Open Scope string_scope.
Local Open Scope list_scope.

Lemma str_split_first_prefix (sep : ascii) (t p : string) (ps : list string) :
  Py.str_split sep t = p :: ps -> exists b, t = p +:+ b.
Proof.
  revert p ps. induction t as [|c t IH]; intros p ps; simpl.
  - intros E. injection E as <- _. now exists "".
  - destruct (Ascii.eqb c sep).
    + intros E. injection E as <- _. now exists (String c t).
    + destruct (Py.str_split sep t) as [|q qs] eqn:Eq.
      * intros E. injection E as <- _. simpl.
        now destruct (str_split_not_nil sep t).
      * intros E. injection E as <- _.
        destruct (IH q qs eq_refl) as [b ->]. now exists b.
Qed.

(** Every piece of a split occurs in the text. *)
Lemma str_split_piece_occurs (sep : ascii) (t p : string) :
  In p (Py.str_split sep t) -> exists a b, t = a +:+ p +:+ b.
Proof.
  revert p. induction t as [|c t IH]; intros p; simpl.
  - intros [<-|[]]. now exists "", "".
  - destruct (Ascii.eqb c sep).
    + intros [<-|H]; [now exists "", (String c t)|].
      destruct (IH p H) as (a & b & ->). now exists (String c a), b.
    + destruct (Py.str_split sep t) as [|q qs] eqn:Eq.
      * now destruct (str_split_not_nil sep t).
      * intros [<-|H].
        -- destruct (str_split_first_prefix sep t q qs Eq) as [b ->].
           now exists "", b.
        -- destruct (IH p (or_intror H)) as (a & b & ->).
           now exists (String c a), b.
Qed.

(** Every surviving sentence occurs in the text as it stands. *)
Lemma split_sentences_occur (text s : string) :
  In s (split_sentences text) -> Py.str_contains s text = true.
Proof.
  intros Hs. unfold split_sentences in Hs.
  apply in_map_iff in Hs as [piece [<- Hp]]. apply filter_In in Hp as [Hp _].
  destruct (str_split_piece_occurs "." text piece Hp) as (a & b & ->).
  destruct (str_strip_spec piece) as [(l & r & E & _) _].
  apply str_contains_spec. exists (a +:+ l), (r +:+ b).
  rewrite E at 1. rewrite !append_assoc. reflexivity.
Qed.

End Verbatim.

Section VerbatimExtras.

(** X18. The summarizer is extractive: every sentence that is joined into
    the summary occurs, character for character, in the text. *)
Theorem summary_sentences_occur_in_text (text : string) (max_sentences : Z) :
  Forall (fun s => Py.str_contains s text = true)
         (map tuple_sentence
              (top_sentences (split_sentences text) max_sentences)).
Proof.
  apply List.Forall_forall. intros s Hs. apply in_map_iff in Hs as [x [<- Hx]].
  apply top_sentences_in, score_sentences_score in Hx as [Hx _].
  now apply split_sentences_occur.
Qed.

End VerbatimExtras.

(** ** More concrete runs *)

Section MoreRuns.

Local Open Scope string_scope.
Local Open Scope list_scope.

(** X1, witness: two positive hits and one negative hit. *)
Lemma sentiment_follows_decimal_table_witness :
  "A good and great plan with one problem" <> "" /\
  analyze_sentiment (Some "A good and great plan with one problem")
  = result_for_difference (2 - 1).
Proof.
  split; [discriminate|].
  rewrite (sentiment_follows_decimal_table
             "A good and great plan with one problem");
    [vm_compute; reflexivity | discriminate].
Defined.

(** X3, witness: the same words in two letter cases. *)
Lemma letter_case_is_ignored_witness :
  Py.str_lower "A GOOD Plan" = Py.str_lower "a good PLAN" /\
  analyze_sentiment (Some "A GOOD Plan") = analyze_sentiment (Some "a good PLAN").
Proof.
  split; [vm_compute; reflexivity|].
  apply (letter_case_is_ignored "A GOOD Plan" "a good PLAN").
  vm_compute. reflexivity.
Defined.

(** X8, witness: of the three sentences of [example_text] the last one
    scores 5 and is left out when two are selected; the second one scores
    7 and is selected. *)
Lemma omitted_sentences_rank_lower_witness :
  In (7, 1, "The budget proposal was reviewed again")
     (top_sentences (split_sentences example_text) 2) /\
  ~ In (5, 2, "Nothing else happened in the meeting today")
       (top_sentences (split_sentences example_text) 2) /\
  tuple_score (5, 2, "Nothing else happened in the meeting today")
  <= tuple_score (7, 1, "The budget proposal was reviewed again").
Proof.
  assert (Hx : In (7, 1, "The budget proposal was reviewed again")
                  (top_sentences (split_sentences example_text) 2)).
  { vm_compute. right. left. reflexivity. }
  assert (Hout : ~ In (5, 2, "Nothing else happened in the meeting today")
                     (top_sentences (split_sentences example_text) 2)).
  { vm_compute. intros [H|[H|[]]]; discriminate H. }
  split; [exact Hx|]. split; [exact Hout|].
  apply (omitted_sentences_rank_lower (split_sentences example_text) 2
           (7, 1, "The budget proposal was reviewed again")
           (5, 2, "Nothing else happened in the meeting today"));
    [exact Hx | | exact Hout].
  vm_compute. right. right. left. reflexivity.
Defined.

(** X10, witness: [example_text] with [max_sentences = 2]. *)
Lemma summary_of_summary_is_summary_witness :
  1 <= 2 /\
  generate_summary (Some (generate_summary (Some example_text) 2)) 2
  = generate_summary (Some example_text) 2.
Proof.
  split; [lia|].
  apply (summary_of_summary_is_summary (Some example_text) 2). lia.
Defined.


(** X13, witness: [example_rows] gives a report of two comments. *)
Lemma distribution_counts_every_entry_witness :
  exists report,
    upload_and_analyze example_rows = Analyzed report /\
    count_positive (sentiment_distribution report)
    + count_negative (sentiment_distribution report)
    + count_neutral (sentiment_distribution report)
    = total_comments report /\
    total_comments report = 2.
Proof.
  eexists. split; [vm_compute; reflexivity|].
  split.
  - eapply (distribution_counts_every_entry example_rows).
    vm_compute. reflexivity.
  - reflexivity.
Defined.

(** X14, witness: the two entries of the report for [example_rows]. *)
Lemma report_entries_have_confidence_witness :
  exists report,
    upload_and_analyze example_rows = Analyzed report /\
    Forall (fun e => PrimFloat.leb 0.5 (entry_confidence e) = true)
           (sentiment_results report).
Proof.
  eexists. split; [vm_compute; reflexivity|].
  apply (report_entries_have_confidence example_rows).
  vm_compute. reflexivity.
Defined.


(** X17, witness: the first row of [example_rows]. *)
Lemma text_column_gives_comment_witness :
  find_text_column
    [ ("name", Some "Ann"); ("Comment", Some "  This is great and wonderful  ") ]
  = Some "  This is great and wonderful  " /\
  In "This is great and wonderful" (map comment_text (collect_comments example_rows)).
Proof.
  split; [vm_compute; reflexivity|].
  apply (text_column_gives_comment example_rows
           [ ("name", Some "Ann");
             ("Comment", Some "  This is great and wonderful  ") ]
           "  This is great and wonderful  ").
  - left. reflexivity.
  - vm_compute. reflexivity.
  - vm_compute. reflexivity.
Defined.

End MoreRuns.
